(** * Kafka connection set-up: a shallow embedding of
      [kafka/connection/kafka_connection.go] and the properties of its
      broker-address validation, trust-store loading, connection-key
      derivation, connection construction and shutdown. *)

From Stdlib Require Import ZArith Lia Bool List Ascii String.
Import ListNotations.

Open Scope list_scope.
Open Scope string_scope.

(** ** Strings: the pieces of Go's [strings] and [strconv] used by the code *)

Module GoStrings.

(** [strings.Split(s, sep)] for a one-byte separator: the substrings of [s]
  between the separators, so one more element than there are separators
  in [s]; the empty string gives a one-element list. *)
Fixpoint Split (s : string) (sep : ascii) : list string :=
match s with
| EmptyString => [EmptyString]
| String c rest =>
    if Ascii.eqb c sep then EmptyString :: Split rest sep
    else match Split rest sep with
         | [] => [String c EmptyString]
         | hd :: tl => String c hd :: tl
         end
end.

(** [strings.Join(elems, sep)], used to render a list with [%v]. *)
Fixpoint Join (elems : list string) (sep : string) : string :=
match elems with
| [] => EmptyString
| [e] => e
| e :: rest => e ++ sep ++ Join rest sep
end.

Definition isDigit (c : ascii) : bool :=
(48 <=? nat_of_ascii c)%nat && (nat_of_ascii c <=? 57)%nat.

Definition digitVal (c : ascii) : Z := Z.of_nat (nat_of_ascii c) - 48.

(** The digit loop of [strconv.ParseUint] in base 10: [None] is the syntax
  error for a byte that is no decimal digit. *)
Fixpoint parseDigits (s : string) (acc : Z) : option Z :=
match s with
| EmptyString => Some acc
| String c rest =>
    if isDigit c then parseDigits rest (acc * 10 + digitVal c) else None
end.

(** [strconv.Atoi] on a 64-bit [int]: an optional sign, then at least one
  decimal digit.  [None] stands for a non-nil error, either [ErrSyntax]
  or [ErrRange] (a value outside [-2^63, 2^63 - 1]). *)
Definition Atoi (s : string) : option Z :=
let '(neg, body) :=
  match s with
  | String c rest =>
      if Ascii.eqb c "+" then (false, rest)
      else if Ascii.eqb c "-" then (true, rest)
      else (false, s)
  | EmptyString => (false, s)
  end in
match body with
| EmptyString => None
| _ =>
    match parseDigits body 0 with
    | None => None
    | Some n =>
        if neg then (if (2 ^ 63 <? n)%Z then None else Some (- n)%Z)
        else (if (2 ^ 63 <=? n)%Z then None else Some n)
    end
end.

End GoStrings.
Import GoStrings.

(** ** Errors

    Every [fmt.Errorf] site of the file is a constructor carrying the
    values that are formatted into the message; [ErrExternal] is an error
    handed back by the client library. *)

Inductive Error : Type :=
| ErrHostPortSections
| ErrPortSpec (port : string)
| ErrNoBroker (brokerUrls : string)
| ErrBrokerFormat (broker : string) (reason : Error)
| ErrTrustStoreMissing (trustStore : string)
| ErrTrustStoreNotDir (trustStore : string)
| ErrTrustStoreUnreadable (trustStore : string)
| ErrNoValidCerts (trustStore : string)
| ErrPasswordMissing (user : string)
| ErrSyncProducer (reason : Error)
| ErrConsumer (reason : Error)
| ErrExternal (msg : string).

Definition dquote : string := String (ascii_of_nat 34) EmptyString.

(** The text of each error, as [Error()] returns it. *)
Fixpoint errorString (e : Error) : string :=
  match e with
  | ErrHostPortSections =>
      "BrokerUrl must be composed of sections like " ++ dquote
        ++ "host:port" ++ dquote
  | ErrPortSpec port =>
      "port specification [" ++ port
        ++ "] is not numeric and between 0 and 32767"
  | ErrNoBroker urls =>
      "BrokerUrl [" ++ urls ++ "] is invalid, require at least one broker"
  | ErrBrokerFormat broker reason =>
      "BrokerUrl [" ++ broker ++ "] format invalid for reason: ["
        ++ errorString reason ++ "]"
  | ErrTrustStoreMissing ts => "Truststore [" ++ ts ++ "] does not exist"
  | ErrTrustStoreNotDir ts =>
      "TrustStore [" ++ ts
        ++ "] is not a directory.  Must be a directory containing trusted certificates in PEM format"
  | ErrTrustStoreUnreadable ts =>
      "failed to read trusted certificates from [" ++ ts
        ++ "]  Must be a directory containing trusted certificates in PEM format"
  | ErrNoValidCerts ts =>
      "failed to read trusted certificates from [" ++ ts
        ++ "]  After processing all files in the directory no valid trusted certs were found"
  | ErrPasswordMissing user => "password not provided for user: " ++ user
  | ErrSyncProducer reason =>
      "failed to create a Kafka SyncProducer.  Check any TLS or SASL parameters carefully.  Reason given: ["
        ++ errorString reason ++ "]"
  | ErrConsumer reason =>
      "failed to create Kafka consumer for reason ["
        ++ errorString reason ++ "]"
  | ErrExternal msg => msg
  end.

(** ** Broker address validation *)

(** [validateBrokerUrl]: [None] is the nil error. *)
Definition validateBrokerUrl (broker : string) : option Error :=
  let hostPort := Split broker ":" in
  if negb (Nat.eqb (List.length hostPort) 2) then Some ErrHostPortSections
  else
    let port := nth 1 hostPort EmptyString in
    match Atoi port with
    | None => Some (ErrPortSpec port)
    | Some i =>
        if (i <? 0)%Z || (32767 <? i)%Z then Some (ErrPortSpec port)
        else None
    end.

(** ** Settings and the connection key *)

Record Settings : Type := mkSettings {
  BrokerUrls : string;
  User : string;
  Password : string;
  TrustStore : string
}.

Definition nonEmpty (s : string) : bool := negb (String.eqb s EmptyString).

(** [getConnectionKey]: [connKey] starts as the zero string and is
    extended by the three [+=] statements. *)
Definition getConnectionKey (settings : Settings) : string :=
  let connKey := EmptyString in
  let connKey := connKey ++ BrokerUrls settings in
  let connKey :=
    if nonEmpty (TrustStore settings) then connKey ++ TrustStore settings
    else connKey in
  let connKey :=
    if nonEmpty (User settings) then connKey ++ User settings
    else connKey in
  connKey.

(** ** Certificates, file modes and the client configuration *)

(** An [x509.Certificate], by the two fields the pool looks at. *)
Record Cert : Type := mkCert {
  Raw : string;
  RawSubject : string
}.

(** An [x509.CertPool]: its certificates in insertion order. *)
Definition CertPool : Type := list Cert.

Definition NewCertPool : CertPool := [].

Definition contains (s : CertPool) (cert : Cert) : bool :=
  existsb (fun c => String.eqb (Raw c) (Raw cert)) s.

(** [AddCert] skips a certificate that the pool already holds. *)
Definition AddCert (s : CertPool) (cert : Cert) : CertPool :=
  if contains s cert then s else (s ++ [cert])%list.

Definition Subjects (s : CertPool) : list string := map RawSubject s.

(** [os.FileMode] is a 32-bit word; the type bits as [os] declares them. *)
Module FileMode.
Definition ModeDir : Z := Z.shiftl 1 31.
Definition ModeSymlink : Z := Z.shiftl 1 27.
Definition ModeDevice : Z := Z.shiftl 1 26.
Definition ModeNamedPipe : Z := Z.shiftl 1 25.
Definition ModeSocket : Z := Z.shiftl 1 24.
Definition ModeCharDevice : Z := Z.shiftl 1 21.
Definition ModeIrregular : Z := Z.shiftl 1 19.
Definition ModeType : Z :=
  Z.lor ModeDir (Z.lor ModeSymlink (Z.lor ModeNamedPipe
    (Z.lor ModeSocket (Z.lor ModeDevice
      (Z.lor ModeCharDevice ModeIrregular))))).
Definition IsDir (m : Z) : bool := negb (Z.land m ModeDir =? 0)%Z.
Definition IsRegular (m : Z) : bool := (Z.land m ModeType =? 0)%Z.
End FileMode.

Inductive RequiredAcks : Type := NoResponse | WaitForLocal | WaitForAll.

(** The fields of [tls.Config] that the code sets. *)
Record TLSConfig : Type := mkTLSConfig {
  RootCAs : CertPool;
  InsecureSkipVerify : bool
}.

(** The fields of [sarama.Config] that the code sets. *)
Record Config : Type := mkConfig {
  Producer_Return_Errors : bool;
  Producer_Return_Successes : bool;
  Producer_RequiredAcks : RequiredAcks;
  Producer_Retry_Max : Z;
  Net_TLS_Enable : bool;
  Net_TLS_Config : option TLSConfig;
  Net_SASL_Enable : bool;
  Net_SASL_User : string;
  Net_SASL_Password : string
}.

(** [sarama.NewConfig()], with the library's defaults for these fields. *)
Definition NewConfig : Config :=
  {| Producer_Return_Errors := true;
     Producer_Return_Successes := false;
     Producer_RequiredAcks := WaitForLocal;
     Producer_Retry_Max := 3;
     Net_TLS_Enable := false;
     Net_TLS_Config := None;
     Net_SASL_Enable := false;
     Net_SASL_User := EmptyString;
     Net_SASL_Password := EmptyString |}.

Definition setProducer (c : Config) (errors successes : bool)
    (acks : RequiredAcks) (retry : Z) : Config :=
  {| Producer_Return_Errors := errors;
     Producer_Return_Successes := successes;
     Producer_RequiredAcks := acks;
     Producer_Retry_Max := retry;
     Net_TLS_Enable := Net_TLS_Enable c;
     Net_TLS_Config := Net_TLS_Config c;
     Net_SASL_Enable := Net_SASL_Enable c;
     Net_SASL_User := Net_SASL_User c;
     Net_SASL_Password := Net_SASL_Password c |}.

Definition setTLS (c : Config) (enable : bool) (config : TLSConfig)
    : Config :=
  {| Producer_Return_Errors := Producer_Return_Errors c;
     Producer_Return_Successes := Producer_Return_Successes c;
     Producer_RequiredAcks := Producer_RequiredAcks c;
     Producer_Retry_Max := Producer_Retry_Max c;
     Net_TLS_Enable := enable;
     Net_TLS_Config := Some config;
     Net_SASL_Enable := Net_SASL_Enable c;
     Net_SASL_User := Net_SASL_User c;
     Net_SASL_Password := Net_SASL_Password c |}.

Definition setSASL (c : Config) (enable : bool) (user password : string)
    : Config :=
  {| Producer_Return_Errors := Producer_Return_Errors c;
     Producer_Return_Successes := Producer_Return_Successes c;
     Producer_RequiredAcks := Producer_RequiredAcks c;
     Producer_Retry_Max := Producer_Retry_Max c;
     Net_TLS_Enable := Net_TLS_Enable c;
     Net_TLS_Config := Net_TLS_Config c;
     Net_SASL_Enable := enable;
     Net_SASL_User := user;
     Net_SASL_Password := password |}.

(** A [sarama.SyncProducer] and a [sarama.Consumer] are interface values;
    of each the code calls [Close] only, whose outcome the value carries. *)
Record SyncProducer : Type := mkSyncProducer {
  producerId : nat;
  producerClose : option Error
}.

Record Consumer : Type := mkConsumer {
  consumerId : nat;
  consumerClose : option Error
}.

Record KafkaConnect : Type := mkKafkaConnect {
  kafkaConfig : Config;
  brokers : list string;
  syncProducer : SyncProducer;
  consumer : Consumer
}.

(** ** The outside world: what the calls see, and what they do *)

(** What the filesystem, the PEM decoder and the cluster answer. *)
Record Env : Type := mkEnv {
  (** [os.Stat]: the mode of the path, or [None] for an error. *)
  fsStat : string -> option Z;
  (** [ioutil.ReadDir]: the entry names in order, or [None] for an error. *)
  fsReadDir : string -> option (list string);
  (** [ioutil.ReadFile]: [None] for an error, else the byte slice, which
      for a slice is [None] when nil. *)
  fsReadFile : string -> option (option string);
  (** The certificates [AppendCertsFromPEM] decodes from the bytes. *)
  pemCertificates : string -> list Cert;
  netNewSyncProducer : list string -> Config -> Error + SyncProducer;
  netNewConsumer : list string -> Config -> Error + Consumer
}.

(** The observable actions, in the order they are performed. *)
Inductive Event : Type :=
| LogDebug (msg : string)
| LogWarn (msg : string)
| FsStat (path : string)
| FsReadDir (path : string)
| FsReadFile (path : string)
| NetNewSyncProducer (addrs : list string) (config : Config)
| NetNewConsumer (addrs : list string) (config : Config)
| ProducerClose (p : SyncProducer)
| ConsumerClose (c : Consumer).

Definition isFilesystem (e : Event) : bool :=
  match e with
  | FsStat _ | FsReadDir _ | FsReadFile _ => true
  | _ => false
  end.

Definition isNetwork (e : Event) : bool :=
  match e with
  | NetNewSyncProducer _ _ | NetNewConsumer _ _ => true
  | _ => false
  end.

Definition isWarning (e : Event) : bool :=
  match e with
  | LogWarn _ => true
  | _ => false
  end.

(** A computation yields its value and the actions it performed. *)
Definition Act (A : Type) : Type := (A * list Event)%type.

Definition ret {A : Type} (a : A) : Act A := (a, []).

Definition bind {A B : Type} (m : Act A) (k : A -> Act B) : Act B :=
  let '(a, t1) := m in
  let '(b, t2) := k a in
  (b, (t1 ++ t2)%list).

Definition emit (e : Event) : Act unit := (tt, [e]).

Definition value {A : Type} (m : Act A) : A := fst m.
Definition trace {A : Type} (m : Act A) : list Event := snd m.

Inductive Result (A : Type) : Type :=
| Ok (a : A)
| Fail (e : Error).
Arguments Ok {A} a.
Arguments Fail {A} e.

(** Sequencing that stops at the first [return nil, err]. *)
Definition bindR {A B : Type} (m : Act (Result A))
    (k : A -> Act (Result B)) : Act (Result B) :=
  bind m (fun r => match r with
                   | Ok a => k a
                   | Fail e => ret (Fail e)
                   end).

Declare Scope act_scope.
Delimit Scope act_scope with act.
Notation "x <- m ;; k" := (bind m (fun x => k))
  (at level 61, m at next level, right associativity) : act_scope.
Notation "m ;; k" := (bind m (fun _ => k))
  (at level 61, right associativity) : act_scope.
Notation "x <-? m ;; k" := (bindR m (fun x => k))
  (at level 61, m at next level, right associativity) : act_scope.
Open Scope act_scope.

Definition Debugf (msg : string) : Act unit := emit (LogDebug msg).
Definition Warnf (msg : string) : Act unit := emit (LogWarn msg).

Definition os_Stat (env : Env) (path : string) : Act (option Z) :=
  emit (FsStat path) ;; ret (fsStat env path).

Definition ioutil_ReadDir (env : Env) (path : string)
    : Act (option (list string)) :=
  emit (FsReadDir path) ;; ret (fsReadDir env path).

Definition ioutil_ReadFile (env : Env) (path : string)
    : Act (option (option string)) :=
  emit (FsReadFile path) ;; ret (fsReadFile env path).

Definition sarama_NewSyncProducer (env : Env) (addrs : list string)
    (config : Config) : Act (Error + SyncProducer) :=
  emit (NetNewSyncProducer addrs config) ;;
  ret (netNewSyncProducer env addrs config).

Definition sarama_NewConsumer (env : Env) (addrs : list string)
    (config : Config) : Act (Error + Consumer) :=
  emit (NetNewConsumer addrs config) ;;
  ret (netNewConsumer env addrs config).

(** ** Trust-store loading *)

(** [os.PathSeparator] on a Unix system. *)
Definition PathSeparator : string := "/".

Definition AppendCertsFromPEM (env : Env) (s : CertPool) (pemCerts : string)
    : CertPool :=
  fold_left AddCert (pemCertificates env pemCerts) s.

(** The [for ... range trustedCertFiles] loop of [getCerts]. *)
Fixpoint loadCertFiles (env : Env) (trustStore : string)
    (trustedCertFiles : list string) (certPool : CertPool) : Act CertPool :=
  match trustedCertFiles with
  | [] => ret certPool
  | name :: rest =>
      let fqfName := trustStore ++ PathSeparator ++ name in
      r <- ioutil_ReadFile env fqfName ;;
      match r with
      | None =>
          Warnf ("Failed to read trusted certificate [" ++ name
                   ++ "] ... continuing") ;;
          loadCertFiles env trustStore rest certPool
      | Some None => loadCertFiles env trustStore rest certPool
      | Some (Some trustCertBytes) =>
          loadCertFiles env trustStore rest
            (AppendCertsFromPEM env certPool trustCertBytes)
      end
  end.

(** [getCerts] from the [ioutil.ReadDir] call on. *)
Definition readTrustStore (env : Env) (trustStore : string)
    (certPool : CertPool) : Act (CertPool * option Error) :=
  d <- ioutil_ReadDir env trustStore ;;
  match d with
  | None => ret (certPool, Some (ErrTrustStoreUnreadable trustStore))
  | Some trustedCertFiles =>
      if Nat.eqb (List.length trustedCertFiles) 0
      then ret (certPool, Some (ErrTrustStoreUnreadable trustStore))
      else
        certPool <- loadCertFiles env trustStore trustedCertFiles certPool ;;
        if (List.length (Subjects certPool) <? 1)%nat
        then ret (certPool, Some (ErrNoValidCerts trustStore))
        else ret (certPool, None)
  end.

(** [getCerts]: the pool is returned beside the error, as in the code. *)
Definition getCerts (env : Env) (trustStore : string)
    : Act (CertPool * option Error) :=
  let certPool := NewCertPool in
  st <- os_Stat env trustStore ;;
  match st with
  | None => ret (certPool, Some (ErrTrustStoreMissing trustStore))
  | Some mode =>
      if FileMode.IsDir mode then readTrustStore env trustStore certPool
      else if FileMode.IsRegular mode
      then ret (certPool, Some (ErrTrustStoreNotDir trustStore))
      else readTrustStore env trustStore certPool
  end.

(** ** Connection construction *)

(** [brokers[brokerNo] = broker]; the index is always in range here. *)
Fixpoint setIndex (l : list string) (i : nat) (v : string) : list string :=
  match l, i with
  | [], _ => []
  | _ :: tl, O => v :: tl
  | hd :: tl, S i' => hd :: setIndex tl i' v
  end.

(** The [for brokerNo, broker := range brokerUrls] loop. *)
Fixpoint validateBrokers (brokerNo : nat) (brokerUrls : list string)
    (brokers : list string) : Result (list string) :=
  match brokerUrls with
  | [] => Ok brokers
  | broker :: rest =>
      match validateBrokerUrl broker with
      | Some err => Fail (ErrBrokerFormat broker err)
      | None => validateBrokers (S brokerNo) rest (setIndex brokers brokerNo broker)
      end
  end.

(** [%v] of a [[]string]. *)
Definition showList (l : list string) : string := "[" ++ Join l " " ++ "]".

(** The truststore block. *)
Definition configureTLS (env : Env) (settings : Settings) (config : Config)
    : Act (Result Config) :=
  if nonEmpty (TrustStore settings) then
    r <- getCerts env (TrustStore settings) ;;
    match r with
    | (trustPool, None) =>
        let tlsConfig :=
          {| RootCAs := trustPool; InsecureSkipVerify := true |} in
        let config := setTLS config true tlsConfig in
        Debugf ("Kafka initialized truststore from ["
                  ++ TrustStore settings ++ "]") ;;
        ret (Ok config)
    | (_, Some err) => ret (Fail err)
    end
  else ret (Ok config).

(** The SASL block. *)
Definition configureSASL (settings : Settings) (config : Config)
    : Act (Result Config) :=
  if nonEmpty (User settings) then
    if Nat.eqb (String.length (Password settings)) 0
    then ret (Fail (ErrPasswordMissing (User settings)))
    else
      let config := setSASL config true (User settings) (Password settings) in
      Debugf ("Kafka SASL params initialized; user ["
                ++ User settings ++ "]") ;;
      ret (Ok config)
  else ret (Ok config).

(** The two client constructions and the returned handle. *)
Definition construct (env : Env) (brokers : list string) (config : Config)
    : Act (Result KafkaConnect) :=
  p <- sarama_NewSyncProducer env brokers config ;;
  match p with
  | inl err => ret (Fail (ErrSyncProducer err))
  | inr syncProducer =>
      c <- sarama_NewConsumer env brokers config ;;
      match c with
      | inl err => ret (Fail (ErrConsumer err))
      | inr kafkaConsumer =>
          ret (Ok {| kafkaConfig := config;
                     brokers := brokers;
                     syncProducer := syncProducer;
                     consumer := kafkaConsumer |})
      end
  end.

(** [getKafkaConnection] from the length test of the split list on. *)
Definition connectBrokers (env : Env) (settings : Settings)
    (config : Config) (brokerUrls : list string) : Act (Result KafkaConnect) :=
  if (List.length brokerUrls <? 1)%nat
  then ret (Fail (ErrNoBroker (BrokerUrls settings)))
  else
    let brokers := repeat EmptyString (List.length brokerUrls) in
    brokers <-? ret (validateBrokers 0 brokerUrls brokers) ;;
    Debugf ("Kafka brokers: [" ++ showList brokers ++ "]") ;;
    config <-? configureTLS env settings config ;;
    config <-? configureSASL settings config ;;
    construct env brokers config.

Definition getKafkaConnection (env : Env) (settings : Settings)
    : Act (Result KafkaConnect) :=
  let config := setProducer NewConfig true true WaitForAll 5 in
  let brokerUrls := Split (BrokerUrls settings) "," in
  connectBrokers env settings config brokerUrls.

(** ** Shutdown *)

Definition SyncProducer_Close (p : SyncProducer) : Act (option Error) :=
  emit (ProducerClose p) ;; ret (producerClose p).

Definition Consumer_Close (c : Consumer) : Act (option Error) :=
  emit (ConsumerClose c) ;; ret (consumerClose c).

Definition Stop (c : KafkaConnect) : Act (option Error) :=
  err <- SyncProducer_Close (syncProducer c) ;;
  match err with
  | Some e => ret (Some e)
  | None =>
      err <- Consumer_Close (consumer c) ;;
      match err with
      | Some e => ret (Some e)
      | None => ret None
      end
  end.

(** ** Vocabulary of the properties *)

(** How often the byte [c] occurs in [s]. *)
Fixpoint countByte (c : ascii) (s : string) : nat :=
  match s with
  | EmptyString => 0
  | String x rest =>
      if Ascii.eqb x c then S (countByte c rest) else countByte c rest
  end.

Fixpoint allDigits (s : string) : bool :=
  match s with
  | EmptyString => true
  | String c rest => isDigit c && allDigits rest
  end.

(** The number a string of decimal digits denotes, leftmost digit first. *)
Fixpoint decimalFrom (acc : Z) (s : string) : Z :=
  match s with
  | EmptyString => acc
  | String c rest => decimalFrom (acc * 10 + digitVal c) rest
  end.

Definition decimalValue (s : string) : Z := decimalFrom 0 s.

(** The address shape [^[^:]+:[0-9]{1,5}$] with the number in
    [0, 32767]. *)
Definition HostPortShape (s : string) : Prop :=
  exists host port,
    s = host ++ ":" ++ port /\
    host <> EmptyString /\ countByte ":" host = 0 /\
    allDigits port = true /\
    (1 <= String.length port <= 5)%nat /\
    (0 <= decimalValue port <= 32767)%Z.

(** The port texts that [strconv.Atoi] reads as a number of
    [0 .. 32767]: an optional sign, then one or more digits. *)
Definition AcceptedPort (port : string) : Prop :=
  exists sign digits,
    port = sign ++ digits /\
    (sign = "" \/ sign = "+" \/ sign = "-") /\
    digits <> EmptyString /\ allDigits digits = true /\
    (0 <= decimalValue digits <= 32767)%Z /\
    (sign = "-" -> decimalValue digits = 0%Z).

(** The addresses the validation lets through. *)
Definition AcceptedAddress (s : string) : Prop :=
  exists host port,
    s = host ++ ":" ++ port /\ countByte ":" host = 0 /\ AcceptedPort port.

(** Every address of the list passes the validation. *)
Definition allValid (brokerUrls : list string) : Prop :=
  Forall (fun broker => validateBrokerUrl broker = None) brokerUrls.

(** The configuration before the trust-store and SASL blocks. *)
Definition baseConfig : Config := setProducer NewConfig true true WaitForAll 5.

(** The log entries of the builder. *)
Definition brokersLogged (brokers : list string) : Event :=
  LogDebug ("Kafka brokers: [" ++ showList brokers ++ "]").

Definition truststoreLogged (trustStore : string) : Event :=
  LogDebug ("Kafka initialized truststore from [" ++ trustStore ++ "]").

Definition saslLogged (user : string) : Event :=
  LogDebug ("Kafka SASL params initialized; user [" ++ user ++ "]").

(** The error classes of the design, and the class of each error site. *)
Inductive ErrorKind : Type :=
| InvalidConfiguration
| MissingCredential
| TrustStoreNotFound
| TrustStoreNotADirectory
| TrustStoreEmptyOrUnreadable
| TrustStoreNoValidCertificates
| ProducerConstructionFailed
| ConsumerConstructionFailed
| InvalidAddress
| External.

Definition kindOf (e : Error) : ErrorKind :=
  match e with
  | ErrHostPortSections | ErrPortSpec _ => InvalidAddress
  | ErrNoBroker _ | ErrBrokerFormat _ _ => InvalidConfiguration
  | ErrTrustStoreMissing _ => TrustStoreNotFound
  | ErrTrustStoreNotDir _ => TrustStoreNotADirectory
  | ErrTrustStoreUnreadable _ => TrustStoreEmptyOrUnreadable
  | ErrNoValidCerts _ => TrustStoreNoValidCertificates
  | ErrPasswordMissing _ => MissingCredential
  | ErrSyncProducer _ => ProducerConstructionFailed
  | ErrConsumer _ => ConsumerConstructionFailed
  | ErrExternal _ => External
  end.

Definition countWarnings (t : list Event) : nat :=
  List.length (filter isWarning t).

Definition noFilesystem (t : list Event) : Prop :=
  forallb (fun e => negb (isFilesystem e)) t = true.

Definition noNetwork (t : list Event) : Prop :=
  forallb (fun e => negb (isNetwork e)) t = true.

(** The file reads of a pass over the directory entries. *)
Definition readEvents (trustStore : string) (names : list string)
    : list Event :=
  map (fun name => FsReadFile (trustStore ++ PathSeparator ++ name)) names.

Definition isReadFile (e : Event) : bool :=
  match e with
  | FsReadFile _ => true
  | _ => false
  end.

(** What a directory entry contributes to the pool. *)
Inductive EntryState : Type :=
| Unreadable
| NoCertificate
| Certificates (certs : list Cert).

Definition entryState (env : Env) (trustStore name : string) : EntryState :=
  match fsReadFile env (trustStore ++ PathSeparator ++ name) with
  | None => Unreadable
  | Some None => NoCertificate
  | Some (Some data) =>
      match pemCertificates env data with
      | [] => NoCertificate
      | certs => Certificates certs
      end
  end.

(** A valid PEM certificate file holds one certificate; a corrupt file
    cannot be read or holds none. *)
Definition isValidFile (env : Env) (trustStore name : string) : bool :=
  match entryState env trustStore name with
  | Certificates [_] => true
  | _ => false
  end.

Definition isUnreadable (env : Env) (trustStore name : string) : bool :=
  match entryState env trustStore name with
  | Unreadable => true
  | _ => false
  end.

Definition isUnparsable (env : Env) (trustStore name : string) : bool :=
  match entryState env trustStore name with
  | NoCertificate => true
  | _ => false
  end.

Definition isCorruptFile (env : Env) (trustStore name : string) : bool :=
  isUnreadable env trustStore name || isUnparsable env trustStore name.

Definition count (p : string -> bool) (l : list string) : nat :=
  List.length (filter p l).

(** The certificates of all entries, in directory order. *)
Definition entryCerts (env : Env) (trustStore : string)
    (names : list string) : list Cert :=
  flat_map (fun name =>
              match entryState env trustStore name with
              | Certificates certs => certs
              | _ => []
              end) names.

(** The pool the directory entries [names] give. *)
Definition poolOf (env : Env) (trustStore : string) (names : list string)
    : CertPool :=
  fold_left AddCert (entryCerts env trustStore names) NewCertPool.

(** ** Sample worlds *)

Definition sampleCert : Cert := {| Raw := "DER-1"; RawSubject := "CN=ca" |}.

Definition dirMode : Z := Z.lor FileMode.ModeDir 493.
Definition fileMode : Z := 420.

(** A filesystem with a trust store [/ts] holding one certificate file
    and one file without a certificate, an empty directory [/empty], a
    directory [/junk] without any certificate, and a regular file
    [/ca.pem]; no broker can be reached. *)
Definition mixedStore : Env :=
  {| fsStat := fun path =>
       if String.eqb path "/ts" then Some dirMode
       else if String.eqb path "/empty" then Some dirMode
       else if String.eqb path "/junk" then Some dirMode
       else if String.eqb path "/ca.pem" then Some fileMode
       else None;
     fsReadDir := fun path =>
       if String.eqb path "/ts" then Some ["ca.pem"; "notes.txt"]
       else if String.eqb path "/empty" then Some []
       else if String.eqb path "/junk" then Some ["a.txt"; "b.bin"]
       else None;
     fsReadFile := fun path =>
       if String.eqb path "/ts/ca.pem" then Some (Some "PEM-1")
       else if String.eqb path "/ts/notes.txt" then Some (Some "hello")
       else if String.eqb path "/junk/a.txt" then Some (Some "hello")
       else None;
     pemCertificates := fun data =>
       if String.eqb data "PEM-1" then [sampleCert] else [];
     netNewSyncProducer := fun _ _ => inl (ErrExternal "unreachable");
     netNewConsumer := fun _ _ => inl (ErrExternal "unreachable") |}.

(** The same store, with a cluster that answers. *)
Definition liveStore : Env :=
  {| fsStat := fsStat mixedStore;
     fsReadDir := fsReadDir mixedStore;
     fsReadFile := fsReadFile mixedStore;
     pemCertificates := pemCertificates mixedStore;
     netNewSyncProducer := fun _ _ =>
       inr {| producerId := 1; producerClose := None |};
     netNewConsumer := fun _ _ =>
       inr {| consumerId := 2; consumerClose := None |} |}.

Definition plainSettings : Settings :=
  {| BrokerUrls := "10.0.0.1:9092,10.0.0.2:9092";
     User := ""; Password := ""; TrustStore := "" |}.

Definition tlsSettings : Settings :=
  {| BrokerUrls := "h:9092"; User := ""; Password := "";
     TrustStore := "/ts" |}.

(** A user without a password, with a trust store. *)
Definition noPasswordSettings : Settings :=
  {| BrokerUrls := "h:9092"; User := "u"; Password := "";
     TrustStore := "/ts" |}.

Definition emptySettings : Settings :=
  {| BrokerUrls := ""; User := "u"; Password := "p"; TrustStore := "/ts" |}.

(** A handle whose producer refuses to close, and one that closes. *)
Definition stuckHandle : KafkaConnect :=
  {| kafkaConfig := baseConfig;
     brokers := ["h:9092"];
     syncProducer :=
       {| producerId := 1; producerClose := Some (ErrExternal "busy") |};
     consumer := {| consumerId := 2; consumerClose := None |} |}.

Definition halfStuckHandle : KafkaConnect :=
  {| kafkaConfig := baseConfig;
     brokers := ["h:9092"];
     syncProducer := {| producerId := 1; producerClose := None |};
     consumer :=
       {| consumerId := 2; consumerClose := Some (ErrExternal "late") |} |}.

(** ** The accessors of the handle, and more vocabulary *)

Module Handle.

(** [Producer()] and [Consumer()]: the objects the handle holds. *)
Definition Producer (c : KafkaConnect) : SyncProducer := syncProducer c.

Definition Consumer (c : KafkaConnect) : Consumer := consumer c.

End Handle.

(** Logging and filesystem access: what happens before the cluster is
    contacted. *)
Definition isLocal (e : Event) : bool :=
  match e with
  | LogDebug _ | LogWarn _ | FsStat _ | FsReadDir _ | FsReadFile _ => true
  | _ => false
  end.

Definition allLocal (t : list Event) : Prop := forallb isLocal t = true.

Definition isClose (e : Event) : bool :=
  match e with
  | ProducerClose _ | ConsumerClose _ => true
  | _ => false
  end.

Definition noClose (t : list Event) : Prop :=
  forallb (fun e => negb (isClose e)) t = true.

(** The trust store is unset or loads. *)
Definition tlsPasses (env : Env) (settings : Settings) : Prop :=
  nonEmpty (TrustStore settings) = false
  \/ snd (value (getCerts env (TrustStore settings))) = None.

(** No user is set, or the user has a password. *)
Definition saslPasses (settings : Settings) : Prop :=
  nonEmpty (User settings) = false \/ Password settings <> EmptyString.

(** The configuration that reaches the client constructors. *)
Definition expectedConfig (env : Env) (settings : Settings) : Config :=
  let config := baseConfig in
  let config :=
    if nonEmpty (TrustStore settings)
    then setTLS config true
           {| RootCAs := fst (value (getCerts env (TrustStore settings)));
              InsecureSkipVerify := true |}
    else config in
  if nonEmpty (User settings)
  then setSASL config true (User settings) (Password settings)
  else config.

(** The constructor calls of a trace. *)
Definition networkEvents (t : list Event) : list Event := filter isNetwork t.

Definition withPassword (settings : Settings) (password : string)
    : Settings :=
  {| BrokerUrls := BrokerUrls settings;
     User := User settings;
     Password := password;
     TrustStore := TrustStore settings |}.

(** A cluster that gives a producer and then refuses the consumer. *)
Definition halfLiveStore : Env :=
  {| fsStat := fsStat mixedStore;
     fsReadDir := fsReadDir mixedStore;
     fsReadFile := fsReadFile mixedStore;
     pemCertificates := pemCertificates mixedStore;
     netNewSyncProducer := fun _ _ =>
       inr {| producerId := 1; producerClose := None |};
     netNewConsumer := fun _ _ => inl (ErrExternal "no consumer") |}.

Definition saslSettings : Settings :=
  {| BrokerUrls := "h:9092,k:9093"; User := "u"; Password := "p";
     TrustStore := "/ts" |}.

Definition secondBadSettings : Settings :=
  {| BrokerUrls := "h:9092,bad,k:x"; User := "u"; Password := "";
     TrustStore := "/ts" |}.

Definition junkStoreSettings : Settings :=
  {| BrokerUrls := "h:9092"; User := "u"; Password := "p";
     TrustStore := "/junk" |}.

(** * Properties *)

(** ** Splitting and number parsing *)

Section SplitFacts.

Variable sep : ascii.

Lemma Split_not_nil (s : string) : Split s sep <> [].
Proof.
  destruct s as [|c rest]; simpl; [discriminate|].
  destruct (Ascii.eqb c sep); [discriminate|].
  destruct (Split rest sep); discriminate.
Qed.

Lemma Split_length (s : string) :
  List.length (Split s sep) = S (countByte sep s).
Proof.
  induction s as [|c rest IH]; simpl; [reflexivity|].
  destruct (Ascii.eqb c sep); simpl; [now rewrite IH|].
  destruct (Split rest sep) as [|hd tl] eqn:E; simpl in *;
    [discriminate IH|exact IH].
Qed.

Lemma Split_no_sep (s : string) :
  countByte sep s = 0 -> Split s sep = [s].
Proof.
  induction s as [|c rest IH]; simpl; [reflexivity|].
  destruct (Ascii.eqb c sep); [discriminate|].
  intros H. now rewrite (IH H).
Qed.

Lemma Split_app_sep (a b : string) :
  countByte sep a = 0 ->
  Split (a ++ String sep b) sep = a :: Split b sep.
Proof.
  induction a as [|c rest IH]; simpl.
  - intros _. now rewrite Ascii.eqb_refl.
  - destruct (Ascii.eqb c sep); [discriminate|].
    intros H. now rewrite (IH H).
Qed.

Lemma Split_one (s b : string) :
  Split s sep = [b] -> s = b /\ countByte sep s = 0.
Proof.
  intros H.
  assert (L : countByte sep s = 0).
  { pose proof (Split_length s) as E. rewrite H in E. simpl in E. lia. }
  split; [|exact L].
  rewrite (Split_no_sep s L) in H. congruence.
Qed.

Lemma Split_two (s a b : string) :
  Split s sep = [a; b] ->
  s = a ++ String sep b /\ countByte sep a = 0 /\ countByte sep b = 0.
Proof.
  revert a. induction s as [|c rest IH]; intros a; simpl; [discriminate|].
  destruct (Ascii.eqb c sep) eqn:E.
  - intros H. injection H as <- H.
    apply Ascii.eqb_eq in E. subst c.
    destruct (Split_one _ _ H) as [-> Hb]. simpl. auto.
  - destruct (Split rest sep) as [|hd tl] eqn:S; [discriminate|].
    intros H. injection H as <- ->.
    destruct (IH hd eq_refl) as (-> & Ha & Hb).
    simpl. rewrite E. auto.
Qed.

Lemma countByte_app (a b : string) :
  countByte sep (a ++ b) = countByte sep a + countByte sep b.
Proof.
  induction a as [|c rest IH]; simpl; [reflexivity|].
  destruct (Ascii.eqb c sep); simpl; now rewrite IH.
Qed.

End SplitFacts.

Lemma isDigit_range (c : ascii) :
  isDigit c = true -> (0 <= digitVal c <= 9)%Z.
Proof.
  unfold isDigit, digitVal. rewrite andb_true_iff.
  rewrite !Nat.leb_le. lia.
Qed.

Lemma isDigit_not_colon (c : ascii) : isDigit c = true -> c <> ":"%char.
Proof. intros H ->. discriminate H. Qed.

Lemma parseDigits_decimal (s : string) (acc : Z) :
  parseDigits s acc = if allDigits s then Some (decimalFrom acc s) else None.
Proof.
  revert acc. induction s as [|c rest IH]; intros acc; simpl; [reflexivity|].
  destruct (isDigit c); simpl; [apply IH|reflexivity].
Qed.

Lemma decimalFrom_lower (s : string) (acc : Z) :
  allDigits s = true -> (0 <= acc)%Z -> (acc <= decimalFrom acc s)%Z.
Proof.
  revert acc. induction s as [|c rest IH]; intros acc; simpl; [lia|].
  rewrite andb_true_iff. intros [Hc Hr] Hacc.
  pose proof (isDigit_range c Hc).
  specialize (IH (acc * 10 + digitVal c)%Z Hr). lia.
Qed.

Lemma allDigits_no_colon (s : string) :
  allDigits s = true -> countByte ":" s = 0.
Proof.
  induction s as [|c rest IH]; simpl; [reflexivity|].
  rewrite andb_true_iff. intros [Hc Hr].
  destruct (Ascii.eqb c ":") eqn:E; [|auto].
  apply Ascii.eqb_eq in E. now apply isDigit_not_colon in Hc.
Qed.

(** [Atoi] accepts exactly the ports of [AcceptedPort]. *)
Lemma Atoi_accepts (port : string) :
  (exists i, Atoi port = Some i /\ (0 <= i <= 32767)%Z) <-> AcceptedPort port.
Proof.
  unfold Atoi, AcceptedPort. split.
  - intros (i & H & Hi).
    destruct port as [|c rest]; [discriminate|].
    destruct (Ascii.eqb c "+") eqn:Ep; [|destruct (Ascii.eqb c "-") eqn:Em].
    + apply Ascii.eqb_eq in Ep. subst c.
      destruct rest as [|d rest]; [discriminate|].
      rewrite parseDigits_decimal in H.
      destruct (allDigits (String d rest)) eqn:D; [|discriminate].
      destruct (2 ^ 63 <=? decimalFrom 0 (String d rest))%Z; [discriminate|].
      injection H as <-.
      exists "+", (String d rest). unfold decimalValue.
      repeat split; simpl in *; auto; try lia; discriminate.
    + apply Ascii.eqb_eq in Em. subst c.
      destruct rest as [|d rest]; [discriminate|].
      rewrite parseDigits_decimal in H.
      destruct (allDigits (String d rest)) eqn:D; [|discriminate].
      destruct (2 ^ 63 <? decimalFrom 0 (String d rest))%Z; [discriminate|].
      injection H as <-.
      pose proof (decimalFrom_lower _ 0%Z D ltac:(lia)).
      exists "-", (String d rest). unfold decimalValue.
      repeat split; simpl in *; auto; try lia; discriminate.
    + rewrite parseDigits_decimal in H.
      destruct (allDigits (String c rest)) eqn:D; [|discriminate].
      destruct (2 ^ 63 <=? decimalFrom 0 (String c rest))%Z; [discriminate|].
      injection H as <-.
      exists "", (String c rest). unfold decimalValue.
      repeat split; simpl in *; auto; try lia; discriminate.
  - intros (sign & digits & -> & Hs & Hne & D & Hv & Hneg).
    unfold decimalValue in *.
    destruct digits as [|d rest]; [contradiction|].
    destruct Hs as [-> | [-> | ->]]; simpl append; cbv iota beta.
    + assert (Ed : Ascii.eqb d "+" = false).
      { destruct (Ascii.eqb d "+") eqn:E; [|reflexivity].
        apply Ascii.eqb_eq in E. subst d. discriminate D. }
      assert (Em : Ascii.eqb d "-" = false).
      { destruct (Ascii.eqb d "-") eqn:E; [|reflexivity].
        apply Ascii.eqb_eq in E. subst d. discriminate D. }
      rewrite Ed, Em, parseDigits_decimal, D.
      destruct (2 ^ 63 <=? decimalFrom 0 (String d rest))%Z eqn:R.
      * apply Z.leb_le in R. lia.
      * eauto.
    + change (Ascii.eqb "+" "+") with true. cbv iota beta.
      rewrite parseDigits_decimal, D.
      destruct (2 ^ 63 <=? decimalFrom 0 (String d rest))%Z eqn:R.
      * apply Z.leb_le in R. lia.
      * eauto.
    + change (Ascii.eqb "-" "+") with false.
      change (Ascii.eqb "-" "-") with true. cbv iota beta.
      rewrite parseDigits_decimal, D.
      destruct (2 ^ 63 <? decimalFrom 0 (String d rest))%Z eqn:R.
      * apply Z.ltb_lt in R. lia.
      * rewrite (Hneg eq_refl). eexists. split; [reflexivity|lia].
Qed.

Lemma AcceptedPort_no_colon (port : string) :
  AcceptedPort port -> countByte ":" port = 0.
Proof.
  intros (sign & digits & -> & Hs & _ & D & _).
  rewrite countByte_app, (allDigits_no_colon _ D).
  destruct Hs as [-> | [-> | ->]]; reflexivity.
Qed.

Lemma validateBrokerUrl_accepted (s : string) :
  validateBrokerUrl s = None <-> AcceptedAddress s.
Proof.
  unfold validateBrokerUrl, AcceptedAddress. split.
  - destruct (Split s ":") as [|a [|b [|x l]]] eqn:E; simpl; try discriminate.
    destruct (Atoi b) as [i|] eqn:A; [|discriminate].
    destruct ((i <? 0)%Z || (32767 <? i)%Z) eqn:R; [discriminate|].
    intros _. apply orb_false_iff in R. destruct R as [R1 R2].
    apply Z.ltb_ge in R1, R2.
    destruct (Split_two _ _ _ _ E) as (-> & Ha & _).
    exists a, b. repeat split; auto.
    apply Atoi_accepts. exists i. auto.
  - intros (host & port & -> & Hh & Hp).
    pose proof (AcceptedPort_no_colon _ Hp) as Hc.
    simpl append.
    rewrite (Split_app_sep _ _ _ Hh), (Split_no_sep _ _ Hc). simpl.
    apply Atoi_accepts in Hp. destruct Hp as (i & -> & Hi).
    assert (R1 : (i <? 0)%Z = false) by (apply Z.ltb_ge; lia).
    assert (R2 : (32767 <? i)%Z = false) by (apply Z.ltb_ge; lia).
    now rewrite R1, R2.
Qed.

Lemma HostPortShape_accepted (s : string) :
  HostPortShape s -> AcceptedAddress s.
Proof.
  intros (host & port & -> & _ & Hh & D & [L _] & V).
  exists host, port. repeat split; auto.
  exists "", port. repeat split; auto; try lia; try discriminate.
  intros ->. simpl in L. lia.
Qed.

(** ** Broker address validation *)

(** C1, as the code has it: every address of the shape
    [^[^:]+:[0-9]{1,5}$] with its number in [0, 32767] is accepted, and
    the accepted addresses are exactly the strings with one colon whose
    part after the colon is an optional sign followed by one or more
    decimal digits of value 0 to 32767; the part before the colon is not
    looked at. *)
Theorem validateBrokerUrl_succeeds_exactly (s : string) :
  (HostPortShape s -> validateBrokerUrl s = None) /\
  (validateBrokerUrl s = None <-> AcceptedAddress s).
Proof.
  split.
  - intros H. apply validateBrokerUrl_accepted.
    now apply HostPortShape_accepted.
  - apply validateBrokerUrl_accepted.
Qed.

Lemma validateBrokerUrl_succeeds_exactly_witness :
  validateBrokerUrl "10.0.0.1:9092" = None
  /\ AcceptedAddress ":9092".
Proof.
  split.
  - apply (proj1 (validateBrokerUrl_succeeds_exactly "10.0.0.1:9092")).
    exists "10.0.0.1", "9092".
    repeat split; simpl; try lia; try reflexivity; discriminate.
  - apply (proj2 (validateBrokerUrl_succeeds_exactly ":9092")).
    reflexivity.
Defined.

(** C1 read literally fails: an address with an empty host is accepted
    although it is not of the shape [^[^:]+:[0-9]{1,5}$]. *)
Lemma validateBrokerUrl_accepts_empty_host :
  validateBrokerUrl ":9092" = None /\ ~ HostPortShape ":9092".
Proof.
  split; [reflexivity|].
  intros (host & port & E & Hne & Hc & _).
  destruct host as [|c host]; [contradiction|].
  simpl in E, Hc. injection E as <- _.
  discriminate Hc.
Qed.

(** More accepted addresses outside the shape: a signed port and a port
    of more than five digits. *)
Example validateBrokerUrl_signed_port :
  validateBrokerUrl "h:+80" = None /\ validateBrokerUrl "h:0000080" = None
  /\ validateBrokerUrl "h:-0" = None.
Proof. repeat split; reflexivity. Qed.

Example validateBrokerUrl_rejects :
  validateBrokerUrl "bad-broker" = Some ErrHostPortSections
  /\ validateBrokerUrl "h:32768" = Some (ErrPortSpec "32768")
  /\ validateBrokerUrl "a:b:1" = Some ErrHostPortSections
  /\ validateBrokerUrl "h:" = Some (ErrPortSpec "")
  /\ validateBrokerUrl "h:-1" = Some (ErrPortSpec "-1")
  /\ validateBrokerUrl "h:99999999999999999999"
     = Some (ErrPortSpec "99999999999999999999").
Proof. repeat split; reflexivity. Qed.

(** ** Actions and their traces *)

Lemma value_bind {A B : Type} (m : Act A) (k : A -> Act B) :
  value (bind m k) = value (k (value m)).
Proof.
  unfold bind, value. destruct m as [a t1]. simpl.
  now destruct (k a).
Qed.

Lemma trace_bind {A B : Type} (m : Act A) (k : A -> Act B) :
  trace (bind m k) = (trace m ++ trace (k (value m)))%list.
Proof.
  unfold bind, value, trace. destruct m as [a t1]. simpl.
  now destruct (k a).
Qed.

Lemma act_eta {A : Type} (m : Act A) : m = (value m, trace m).
Proof. now destruct m. Qed.

Lemma value_ret {A : Type} (a : A) : value (ret a) = a.
Proof. reflexivity. Qed.

Lemma trace_ret {A : Type} (a : A) : trace (ret a) = [].
Proof. reflexivity. Qed.

Lemma value_emit (e : Event) : value (emit e) = tt.
Proof. reflexivity. Qed.

Lemma trace_emit (e : Event) : trace (emit e) = [e].
Proof. reflexivity. Qed.

Lemma value_pair {A : Type} (a : A) (t : list Event) : value (a, t) = a.
Proof. reflexivity. Qed.

Lemma trace_pair {A : Type} (a : A) (t : list Event) : trace (a, t) = t.
Proof. reflexivity. Qed.

Create Rewrite HintDb act.
#[local] Hint Rewrite @value_bind @trace_bind @value_ret @trace_ret
  value_emit trace_emit @value_pair @trace_pair app_nil_r app_nil_l : act.

Ltac act_simpl := unfold Debugf, Warnf; autorewrite with act.

Lemma count_cons (p : string -> bool) (x : string) (l : list string) :
  count p (x :: l) = (if p x then 1 else 0) + count p l.
Proof. unfold count. simpl. now destruct (p x). Qed.

Lemma countWarnings_app (t1 t2 : list Event) :
  countWarnings (t1 ++ t2) = countWarnings t1 + countWarnings t2.
Proof.
  unfold countWarnings. now rewrite filter_app, length_app.
Qed.

Lemma noNetwork_app (t1 t2 : list Event) :
  noNetwork (t1 ++ t2) <-> noNetwork t1 /\ noNetwork t2.
Proof.
  unfold noNetwork. rewrite forallb_app. apply andb_true_iff.
Qed.

(** ** File modes *)

Lemma IsRegular_not_IsDir (m : Z) :
  FileMode.IsRegular m = true -> FileMode.IsDir m = false.
Proof.
  unfold FileMode.IsRegular, FileMode.IsDir. intros H.
  apply Z.eqb_eq in H.
  assert (E : FileMode.ModeDir = Z.land FileMode.ModeType FileMode.ModeDir)
    by reflexivity.
  rewrite E, Z.land_assoc, H, Z.land_0_l. reflexivity.
Qed.

(** ** The certificate pool *)

Lemma contains_In (s : CertPool) (cert : Cert) :
  contains s cert = true <-> In (Raw cert) (map Raw s).
Proof.
  unfold contains. rewrite existsb_exists, in_map_iff. split.
  - intros (c & Hc & E). apply String.eqb_eq in E. eauto.
  - intros (c & E & Hc). exists c. split; [exact Hc|].
    now apply String.eqb_eq.
Qed.

(** Adding certificates that are new and pairwise distinct appends them. *)
Lemma fold_AddCert_fresh (certs : list Cert) (s : CertPool) :
  NoDup (map Raw (s ++ certs)) ->
  fold_left AddCert certs s = (s ++ certs)%list.
Proof.
  revert s. induction certs as [|c certs IH]; intros s H; simpl.
  - now rewrite app_nil_r.
  - assert (F : contains s c = false).
    { destruct (contains s c) eqn:E; [|reflexivity].
      apply contains_In in E.
      rewrite map_app in H. simpl in H.
      apply NoDup_remove_2 in H. exfalso. apply H.
      apply in_or_app. now left. }
    unfold AddCert at 2. rewrite F.
    replace (s ++ c :: certs)%list with ((s ++ [c]) ++ certs)%list in *
      by (now rewrite <- app_assoc).
    now apply IH.
Qed.

(** The pool never shrinks. *)
Lemma fold_AddCert_length (certs : list Cert) (s : CertPool) :
  List.length s <= List.length (fold_left AddCert certs s).
Proof.
  revert s. induction certs as [|c certs IH]; intros s; simpl; [lia|].
  etransitivity; [|apply IH].
  unfold AddCert. destruct (contains s c); [lia|].
  rewrite length_app. simpl. lia.
Qed.

(** An empty pool that is given a certificate is no longer empty. *)
Lemma fold_AddCert_nonempty (certs : list Cert) :
  certs <> [] -> fold_left AddCert certs [] <> [].
Proof.
  destruct certs as [|c certs]; [contradiction|]. intros _ E.
  pose proof (fold_AddCert_length certs (AddCert [] c)) as L.
  simpl in E. rewrite E in L. simpl in L. lia.
Qed.

(** ** Trust-store loading *)

Section TrustStore.

Variable env : Env.
Variable trustStore : string.

Lemma loadCertFiles_cons (name : string) (rest : list string)
    (certPool : CertPool) :
  loadCertFiles env trustStore (name :: rest) certPool
  = (r <- ioutil_ReadFile env (trustStore ++ PathSeparator ++ name) ;;
     match r with
     | None =>
         Warnf ("Failed to read trusted certificate [" ++ name
                  ++ "] ... continuing") ;;
         loadCertFiles env trustStore rest certPool
     | Some None => loadCertFiles env trustStore rest certPool
     | Some (Some trustCertBytes) =>
         loadCertFiles env trustStore rest
           (AppendCertsFromPEM env certPool trustCertBytes)
     end).
Proof. reflexivity. Qed.

Lemma loadCertFiles_value (names : list string) (certPool : CertPool) :
  value (loadCertFiles env trustStore names certPool)
  = fold_left AddCert (entryCerts env trustStore names) certPool.
Proof.
  revert certPool. induction names as [|name rest IH]; intros certPool.
  - reflexivity.
  - rewrite loadCertFiles_cons. unfold entryCerts. simpl flat_map.
    rewrite fold_left_app. fold (entryCerts env trustStore rest).
    unfold ioutil_ReadFile, entryState. act_simpl.
    destruct (fsReadFile env (trustStore ++ PathSeparator ++ name))
      as [[data|]|]; act_simpl.
    + rewrite IH. unfold AppendCertsFromPEM.
      destruct (pemCertificates env data); reflexivity.
    + apply IH.
    + apply IH.
Qed.

Lemma loadCertFiles_trace_reads (names : list string) (certPool : CertPool) :
  filter isReadFile (trace (loadCertFiles env trustStore names certPool))
  = readEvents trustStore names.
Proof.
  revert certPool. induction names as [|name rest IH]; intros certPool.
  - reflexivity.
  - rewrite loadCertFiles_cons. unfold ioutil_ReadFile. act_simpl.
    destruct (fsReadFile env (trustStore ++ PathSeparator ++ name))
      as [[data|]|]; act_simpl; simpl; f_equal; apply IH.
Qed.

Lemma isUnreadable_read (name : string) :
  isUnreadable env trustStore name
  = match fsReadFile env (trustStore ++ PathSeparator ++ name) with
    | None => true
    | Some _ => false
    end.
Proof.
  unfold isUnreadable, entryState.
  destruct (fsReadFile env (trustStore ++ PathSeparator ++ name))
    as [[data|]|]; try reflexivity.
  now destruct (pemCertificates env data).
Qed.

Lemma loadCertFiles_trace_warnings (names : list string)
    (certPool : CertPool) :
  countWarnings (trace (loadCertFiles env trustStore names certPool))
  = count (isUnreadable env trustStore) names.
Proof.
  revert certPool. induction names as [|name rest IH]; intros certPool.
  - reflexivity.
  - rewrite loadCertFiles_cons, count_cons, isUnreadable_read.
    unfold ioutil_ReadFile. act_simpl.
    rewrite !countWarnings_app.
    destruct (fsReadFile env (trustStore ++ PathSeparator ++ name))
      as [[data|]|]; act_simpl;
      rewrite ?countWarnings_app, IH; reflexivity.
Qed.

Lemma loadCertFiles_trace_noNetwork (names : list string)
    (certPool : CertPool) :
  noNetwork (trace (loadCertFiles env trustStore names certPool)).
Proof.
  revert certPool. induction names as [|name rest IH]; intros certPool.
  - reflexivity.
  - rewrite loadCertFiles_cons. unfold ioutil_ReadFile. act_simpl.
    rewrite !noNetwork_app. split; [split; reflexivity|].
    destruct (fsReadFile env (trustStore ++ PathSeparator ++ name))
      as [[data|]|]; act_simpl; rewrite ?noNetwork_app;
      repeat split; apply IH.
Qed.

End TrustStore.

Section TrustStoreOutcomes.

Variable env : Env.
Variable trustStore : string.

Lemma readTrustStore_entries (names : list string) :
  fsReadDir env trustStore = Some names -> names <> [] ->
  readTrustStore env trustStore NewCertPool
  = ((poolOf env trustStore names,
      if (List.length (Subjects (poolOf env trustStore names)) <? 1)%nat
      then Some (ErrNoValidCerts trustStore) else None),
     FsReadDir trustStore
       :: trace (loadCertFiles env trustStore names NewCertPool)).
Proof.
  intros D Hne. unfold readTrustStore, ioutil_ReadDir, poolOf.
  rewrite (act_eta (bind _ _)). act_simpl. rewrite D.
  destruct names as [|name rest]; [contradiction|].
  cbv beta iota. change (Nat.eqb (List.length (name :: rest)) 0) with false.
  cbv iota. act_simpl. rewrite loadCertFiles_value.
  destruct (List.length (Subjects _) <? 1)%nat; act_simpl; reflexivity.
Qed.

Lemma readTrustStore_unreadable :
  fsReadDir env trustStore = None \/ fsReadDir env trustStore = Some [] ->
  readTrustStore env trustStore NewCertPool
  = ((NewCertPool, Some (ErrTrustStoreUnreadable trustStore)),
     [FsReadDir trustStore]).
Proof.
  intros D. unfold readTrustStore, ioutil_ReadDir.
  rewrite (act_eta (bind _ _)). act_simpl.
  destruct D as [-> | ->]; reflexivity.
Qed.

Lemma getCerts_not_regular (mode : Z) :
  fsStat env trustStore = Some mode ->
  FileMode.IsRegular mode = false ->
  getCerts env trustStore
  = (value (readTrustStore env trustStore NewCertPool),
     FsStat trustStore
       :: trace (readTrustStore env trustStore NewCertPool)).
Proof.
  intros S R. unfold getCerts, os_Stat.
  rewrite (act_eta (bind _ _)). act_simpl. rewrite S, R.
  destruct (FileMode.IsDir mode); reflexivity.
Qed.

(** C4: the outcomes of trust-store loading.  A path that cannot be
    stat-ed gives the not-found error; a regular file gives the
    not-a-directory error and nothing is read; a directory that cannot
    be listed or lists no entry gives the empty-or-unreadable error;
    otherwise every entry is read in order, and the result is the
    no-valid-certificates error when the pool has no subject and the
    populated pool when it has one. *)
Theorem getCerts_outcomes :
  (fsStat env trustStore = None ->
   getCerts env trustStore
   = ((NewCertPool, Some (ErrTrustStoreMissing trustStore)),
      [FsStat trustStore]))
  /\ (forall mode,
       fsStat env trustStore = Some mode ->
       FileMode.IsRegular mode = true ->
       getCerts env trustStore
       = ((NewCertPool, Some (ErrTrustStoreNotDir trustStore)),
          [FsStat trustStore]))
  /\ (forall mode,
       fsStat env trustStore = Some mode ->
       FileMode.IsRegular mode = false ->
       (fsReadDir env trustStore = None
        \/ fsReadDir env trustStore = Some [] ->
        getCerts env trustStore
        = ((NewCertPool, Some (ErrTrustStoreUnreadable trustStore)),
           [FsStat trustStore; FsReadDir trustStore]))
       /\ (forall names,
            fsReadDir env trustStore = Some names -> names <> [] ->
            let r := getCerts env trustStore in
            fst (value r) = poolOf env trustStore names
            /\ filter isReadFile (trace r) = readEvents trustStore names
            /\ (Subjects (poolOf env trustStore names) = [] ->
                snd (value r) = Some (ErrNoValidCerts trustStore))
            /\ (Subjects (poolOf env trustStore names) <> [] ->
                snd (value r) = None))).
Proof.
  split; [|split].
  - intros S. unfold getCerts, os_Stat.
    rewrite (act_eta (bind _ _)). act_simpl. now rewrite S.
  - intros mode S R. unfold getCerts, os_Stat.
    rewrite (act_eta (bind _ _)). act_simpl.
    now rewrite S, (IsRegular_not_IsDir _ R), R.
  - intros mode S R. split.
    + intros D. rewrite (getCerts_not_regular _ S R).
      now rewrite (readTrustStore_unreadable D).
    + intros names D Hne r. subst r.
      rewrite (getCerts_not_regular _ S R).
      rewrite (readTrustStore_entries _ D Hne). act_simpl. simpl.
      repeat split.
      * apply loadCertFiles_trace_reads.
      * intros E. now rewrite E.
      * intros E. destruct (Subjects (poolOf env trustStore names)); [contradiction|].
        reflexivity.
Qed.

End TrustStoreOutcomes.

Lemma getCerts_outcomes_witness :
  getCerts mixedStore "/nowhere"
  = ((NewCertPool, Some (ErrTrustStoreMissing "/nowhere")),
     [FsStat "/nowhere"])
  /\ getCerts mixedStore "/ca.pem"
     = ((NewCertPool, Some (ErrTrustStoreNotDir "/ca.pem")),
        [FsStat "/ca.pem"])
  /\ getCerts mixedStore "/empty"
     = ((NewCertPool, Some (ErrTrustStoreUnreadable "/empty")),
        [FsStat "/empty"; FsReadDir "/empty"])
  /\ snd (value (getCerts mixedStore "/junk"))
     = Some (ErrNoValidCerts "/junk")
  /\ snd (value (getCerts mixedStore "/ts")) = None.
Proof.
  split; [|split; [|split; [|split]]].
  - apply (proj1 (getCerts_outcomes mixedStore "/nowhere")). reflexivity.
  - apply (proj1 (proj2 (getCerts_outcomes mixedStore "/ca.pem")) fileMode);
      reflexivity.
  - apply (proj1 (proj2 (proj2 (getCerts_outcomes mixedStore "/empty"))
                    dirMode eq_refl eq_refl)).
    right. reflexivity.
  - apply (proj2 (proj2 (proj2 (getCerts_outcomes mixedStore "/junk"))
                    dirMode eq_refl eq_refl)
             ["a.txt"; "b.bin"] eq_refl);
      [discriminate|reflexivity].
  - apply (proj2 (proj2 (proj2 (getCerts_outcomes mixedStore "/ts"))
                    dirMode eq_refl eq_refl)
             ["ca.pem"; "notes.txt"] eq_refl);
      discriminate.
Defined.

(** A directory of corrupt files only: one unreadable, one without a
    certificate. *)
Example getCerts_only_corrupt :
  let r := getCerts mixedStore "/junk" in
  value r = (NewCertPool, Some (ErrNoValidCerts "/junk"))
  /\ countWarnings (trace r) = 1.
Proof. split; reflexivity. Qed.

Section TrustStoreCounts.

Variable env : Env.
Variable trustStore : string.

Lemma entryCerts_cons (name : string) (rest : list string) :
  entryCerts env trustStore (name :: rest)
  = (match entryState env trustStore name with
     | Certificates certs => certs
     | _ => []
     end ++ entryCerts env trustStore rest)%list.
Proof. reflexivity. Qed.

(** When every entry is a valid or a corrupt file, each valid file
    gives one certificate and the others none. *)
Lemma entryCerts_length (names : list string) :
  forallb (fun name => isValidFile env trustStore name
                       || isCorruptFile env trustStore name) names = true ->
  List.length (entryCerts env trustStore names)
  = count (isValidFile env trustStore) names.
Proof.
  induction names as [|name rest IH]; [reflexivity|].
  simpl forallb. rewrite andb_true_iff. intros [H Hr].
  rewrite entryCerts_cons, count_cons, length_app, (IH Hr).
  f_equal. revert H.
  unfold isValidFile, isCorruptFile, isUnreadable, isUnparsable.
  destruct (entryState env trustStore name) as [| |[|c [|c' certs]]];
    simpl; intros H; try reflexivity; discriminate H.
Qed.

(** C3, as the code has it: for a trust-store directory whose entries
    are [N >= 1] valid files, each holding one certificate and no two the
    same certificate, and [M >= 0] corrupt files, loading succeeds, the
    pool has [N] subjects, and one warning is emitted for each file that
    could not be read; a file that was read and holds no certificate is
    skipped without a warning. *)
Theorem getCerts_valid_and_corrupt (mode : Z) (names : list string) :
  fsStat env trustStore = Some mode ->
  FileMode.IsDir mode = true ->
  fsReadDir env trustStore = Some names ->
  forallb (fun name => isValidFile env trustStore name
                       || isCorruptFile env trustStore name) names = true ->
  NoDup (map Raw (entryCerts env trustStore names)) ->
  1 <= count (isValidFile env trustStore) names ->
  let r := getCerts env trustStore in
  snd (value r) = None
  /\ List.length (Subjects (fst (value r)))
     = count (isValidFile env trustStore) names
  /\ countWarnings (trace r) = count (isUnreadable env trustStore) names.
Proof.
  intros S Dir D All Fresh N r. subst r.
  assert (R : FileMode.IsRegular mode = false).
  { destruct (FileMode.IsRegular mode) eqn:E; [|reflexivity].
    apply IsRegular_not_IsDir in E. congruence. }
  assert (Hne : names <> []).
  { intros ->. unfold count in N. simpl in N. lia. }
  rewrite (getCerts_not_regular _ _ _ S R).
  rewrite (readTrustStore_entries _ _ _ D Hne).
  act_simpl. simpl fst. simpl snd.
  assert (P : poolOf env trustStore names = entryCerts env trustStore names).
  { unfold poolOf. now rewrite fold_AddCert_fresh. }
  assert (L : List.length (Subjects (poolOf env trustStore names))
              = count (isValidFile env trustStore) names).
  { unfold Subjects. rewrite length_map, P. now apply entryCerts_length. }
  rewrite L. repeat split.
  - destruct (count (isValidFile env trustStore) names <? 1)%nat eqn:E;
      [|reflexivity].
    apply Nat.ltb_lt in E. lia.
  - change (FsStat trustStore :: FsReadDir trustStore :: ?t)
      with ([FsStat trustStore; FsReadDir trustStore] ++ t)%list.
    rewrite countWarnings_app. simpl.
    apply loadCertFiles_trace_warnings.
Qed.

End TrustStoreCounts.

Lemma getCerts_valid_and_corrupt_witness :
  let r := getCerts mixedStore "/ts" in
  snd (value r) = None
  /\ List.length (Subjects (fst (value r)))
     = count (isValidFile mixedStore "/ts") ["ca.pem"; "notes.txt"]
  /\ countWarnings (trace r)
     = count (isUnreadable mixedStore "/ts") ["ca.pem"; "notes.txt"].
Proof.
  apply (getCerts_valid_and_corrupt mixedStore "/ts" dirMode
           ["ca.pem"; "notes.txt"]).
  - reflexivity.
  - reflexivity.
  - reflexivity.
  - reflexivity.
  - vm_compute. constructor; [intros []|constructor].
  - vm_compute. lia.
Defined.

(** C3 read literally fails: of one valid and one corrupt file, the
    corrupt one is read but holds no certificate; loading succeeds with
    one subject, and no warning is emitted for the corrupt file. *)
Lemma getCerts_unparsable_file_not_warned :
  let names := ["ca.pem"; "notes.txt"] in
  let r := getCerts mixedStore "/ts" in
  fsReadDir mixedStore "/ts" = Some names
  /\ count (isValidFile mixedStore "/ts") names = 1
  /\ count (isCorruptFile mixedStore "/ts") names = 1
  /\ snd (value r) = None
  /\ List.length (Subjects (fst (value r))) = 1
  /\ countWarnings (trace r) = 0
  /\ countWarnings (trace r) <> count (isCorruptFile mixedStore "/ts") names.
Proof. vm_compute. repeat split; discriminate. Qed.

(** ** Connection construction *)

Lemma setIndex_app (pre tl : list string) (x v : string) :
  setIndex (pre ++ x :: tl) (List.length pre) v = (pre ++ v :: tl)%list.
Proof.
  induction pre as [|p pre IH]; simpl; [reflexivity|]. now rewrite IH.
Qed.

(** When every address is valid the loop copies the list. *)
Lemma validateBrokers_allValid (pre rest : list string) :
  allValid rest ->
  validateBrokers (List.length pre) rest
    (pre ++ repeat EmptyString (List.length rest))
  = Ok (pre ++ rest)%list.
Proof.
  revert pre. induction rest as [|b rest IH]; intros pre H; simpl.
  - reflexivity.
  - inversion H as [|? ? Hb Hr]; subst. rewrite Hb, setIndex_app.
    replace (pre ++ b :: repeat EmptyString (List.length rest))%list
      with ((pre ++ [b]) ++ repeat EmptyString (List.length rest))%list
      by (now rewrite <- app_assoc).
    replace (S (List.length pre)) with (List.length (pre ++ [b])%list)
      by (rewrite length_app; simpl; lia).
    rewrite (IH _ Hr). now rewrite <- app_assoc.
Qed.

(** The loop fails at the first address that does not validate. *)
Lemma validateBrokers_fail (n : nat) (l bs : list string) (e : Error) :
  validateBrokers n l bs = Fail e ->
  exists broker err,
    In broker l /\ validateBrokerUrl broker = Some err
    /\ e = ErrBrokerFormat broker err.
Proof.
  revert n bs. induction l as [|b l IH]; intros n bs; simpl; [discriminate|].
  destruct (validateBrokerUrl b) as [err|] eqn:V.
  - intros H. injection H as <-. exists b, err. auto.
  - intros H. destruct (IH _ _ H) as (broker & err & Hin & Hv & ->).
    exists broker, err. auto.
Qed.

Lemma validateBrokers_ok_allValid (n : nat) (l bs out : list string) :
  validateBrokers n l bs = Ok out -> allValid l.
Proof.
  revert n bs. induction l as [|b l IH]; intros n bs; simpl.
  - constructor.
  - destruct (validateBrokerUrl b) eqn:V; [discriminate|].
    intros H. constructor; [exact V|]. eapply IH, H.
Qed.

Section Builder.

Variable env : Env.
Variable settings : Settings.

Lemma getCerts_noNetwork (trustStore : string) :
  noNetwork (trace (getCerts env trustStore)).
Proof.
  unfold getCerts, os_Stat. act_simpl.
  assert (R : noNetwork (trace (readTrustStore env trustStore NewCertPool))).
  { unfold readTrustStore, ioutil_ReadDir. act_simpl.
    destruct (fsReadDir env trustStore) as [names|]; [|reflexivity].
    destruct (Nat.eqb (List.length names) 0); [reflexivity|].
    act_simpl. rewrite !noNetwork_app. repeat split.
    - apply loadCertFiles_trace_noNetwork.
    - now destruct (List.length _ <? 1)%nat. }
  destruct (fsStat env trustStore) as [mode|]; [|reflexivity].
  destruct (FileMode.IsDir mode); [|destruct (FileMode.IsRegular mode)];
    rewrite ?noNetwork_app; auto; repeat split; auto.
Qed.

Lemma getCerts_stats (trustStore : string) :
  exists t, trace (getCerts env trustStore) = FsStat trustStore :: t.
Proof.
  unfold getCerts, os_Stat. act_simpl. simpl. eauto.
Qed.

(** The truststore block, case by case. *)
Lemma configureTLS_unset (config : Config) :
  nonEmpty (TrustStore settings) = false ->
  configureTLS env settings config = (Ok config, []).
Proof. intros H. unfold configureTLS. now rewrite H. Qed.

Lemma configureTLS_loaded (config : Config) (pool : CertPool) :
  nonEmpty (TrustStore settings) = true ->
  value (getCerts env (TrustStore settings)) = (pool, None) ->
  configureTLS env settings config
  = (Ok (setTLS config true
           {| RootCAs := pool; InsecureSkipVerify := true |}),
     (trace (getCerts env (TrustStore settings))
        ++ [truststoreLogged (TrustStore settings)])%list).
Proof.
  intros H G. unfold configureTLS. rewrite H.
  rewrite (act_eta (bind _ _)). act_simpl. now rewrite G.
Qed.

Lemma configureTLS_failed (config : Config) (pool : CertPool)
    (err : Error) :
  nonEmpty (TrustStore settings) = true ->
  value (getCerts env (TrustStore settings)) = (pool, Some err) ->
  configureTLS env settings config
  = (Fail err, trace (getCerts env (TrustStore settings))).
Proof.
  intros H G. unfold configureTLS. rewrite H.
  rewrite (act_eta (bind _ _)). act_simpl. rewrite G. now act_simpl.
Qed.

Lemma configureTLS_noNetwork (config : Config) :
  noNetwork (trace (configureTLS env settings config)).
Proof.
  destruct (nonEmpty (TrustStore settings)) eqn:H.
  - destruct (value (getCerts env (TrustStore settings)))
      as [pool [err|]] eqn:G.
    + rewrite (configureTLS_failed _ _ _ H G). apply getCerts_noNetwork.
    + rewrite (configureTLS_loaded _ _ H G). act_simpl.
      rewrite noNetwork_app. split; [apply getCerts_noNetwork|reflexivity].
  - now rewrite (configureTLS_unset _ H).
Qed.

(** The SASL block, case by case. *)
Lemma configureSASL_cases (config : Config) :
  configureSASL settings config
  = if nonEmpty (User settings) then
      if Nat.eqb (String.length (Password settings)) 0
      then (Fail (ErrPasswordMissing (User settings)), [])
      else (Ok (setSASL config true (User settings) (Password settings)),
            [saslLogged (User settings)])
    else (Ok config, []).
Proof.
  unfold configureSASL.
  destruct (nonEmpty (User settings)); [|reflexivity].
  destruct (Nat.eqb (String.length (Password settings)) 0); reflexivity.
Qed.

(** The builder, stage by stage. *)
Lemma connectBrokers_stages (config : Config) (brokerUrls : list string) :
  brokerUrls <> [] ->
  connectBrokers env settings config brokerUrls
  = match validateBrokers 0 brokerUrls
            (repeat EmptyString (List.length brokerUrls)) with
    | Fail e => (Fail e, [])
    | Ok brokers =>
        let tls := configureTLS env settings config in
        match value tls with
        | Fail e => (Fail e, brokersLogged brokers :: trace tls)
        | Ok c1 =>
            let sasl := configureSASL settings c1 in
            match value sasl with
            | Fail e =>
                (Fail e, brokersLogged brokers :: trace tls ++ trace sasl)
            | Ok c2 =>
                (value (construct env brokers c2),
                 brokersLogged brokers
                   :: trace tls ++ trace sasl
                   ++ trace (construct env brokers c2))
            end
        end
    end%list.
Proof.
  intros Hne. unfold connectBrokers.
  destruct brokerUrls as [|b rest]; [contradiction|].
  change (List.length (b :: rest) <? 1)%nat with false. cbv iota.
  destruct (validateBrokers 0 (b :: rest) _) as [brokers|e];
    [|reflexivity].
  unfold bindR. rewrite (act_eta (bind _ _)). act_simpl. cbv zeta.
  destruct (value (configureTLS env settings config)) as [c1|e];
    act_simpl; [|reflexivity].
  destruct (value (configureSASL settings c1)) as [c2|e];
    act_simpl; reflexivity.
Qed.

End Builder.

Section BuilderOutcomes.

Variable env : Env.
Variable settings : Settings.

Lemma getKafkaConnection_stages :
  getKafkaConnection env settings
  = connectBrokers env settings baseConfig
      (Split (BrokerUrls settings) ",").
Proof. reflexivity. Qed.

Lemma construct_first (bs : list string) (config : Config) :
  exists t,
    trace (construct env bs config) = NetNewSyncProducer bs config :: t.
Proof.
  unfold construct, sarama_NewSyncProducer. act_simpl. simpl. eauto.
Qed.

Lemma construct_handle (bs : list string) (config : Config)
    (conn : KafkaConnect) :
  value (construct env bs config) = Ok conn ->
  kafkaConfig conn = config /\ brokers conn = bs.
Proof.
  unfold construct, sarama_NewSyncProducer, sarama_NewConsumer. act_simpl.
  destruct (netNewSyncProducer env bs config) as [e|p]; act_simpl;
    [discriminate|].
  destruct (netNewConsumer env bs config) as [e|c]; act_simpl;
    [discriminate|].
  intros H. injection H as <-. auto.
Qed.

Lemma construct_error_kind (bs : list string) (config : Config)
    (e : Error) :
  value (construct env bs config) = Fail e ->
  kindOf e = ProducerConstructionFailed
  \/ kindOf e = ConsumerConstructionFailed.
Proof.
  unfold construct, sarama_NewSyncProducer, sarama_NewConsumer. act_simpl.
  destruct (netNewSyncProducer env bs config) as [e1|p]; act_simpl.
  - intros H. injection H as <-. now left.
  - destruct (netNewConsumer env bs config) as [e2|c]; act_simpl;
      [|discriminate].
    intros H. injection H as <-. now right.
Qed.

Lemma getCerts_error_kind (trustStore : string) (e : Error) :
  snd (value (getCerts env trustStore)) = Some e ->
  kindOf e = TrustStoreNotFound \/ kindOf e = TrustStoreNotADirectory
  \/ kindOf e = TrustStoreEmptyOrUnreadable
  \/ kindOf e = TrustStoreNoValidCertificates.
Proof.
  assert (R : snd (value (readTrustStore env trustStore NewCertPool))
              = Some e ->
              kindOf e = TrustStoreEmptyOrUnreadable
              \/ kindOf e = TrustStoreNoValidCertificates).
  { unfold readTrustStore, ioutil_ReadDir. act_simpl.
    destruct (fsReadDir env trustStore) as [names|]; act_simpl.
    - destruct (Nat.eqb (List.length names) 0); act_simpl.
      + intros H. injection H as <-. now left.
      + destruct (List.length _ <? 1)%nat; act_simpl; [|discriminate].
        intros H. injection H as <-. now right.
    - intros H. injection H as <-. now left. }
  unfold getCerts, os_Stat. act_simpl.
  destruct (fsStat env trustStore) as [mode|]; act_simpl.
  - destruct (FileMode.IsDir mode); [tauto|].
    destruct (FileMode.IsRegular mode); act_simpl; [|tauto].
    intros H. injection H as <-. auto.
  - intros H. injection H as <-. auto.
Qed.

Lemma configureTLS_error_kind (config : Config) (e : Error) :
  value (configureTLS env settings config) = Fail e ->
  kindOf e = TrustStoreNotFound \/ kindOf e = TrustStoreNotADirectory
  \/ kindOf e = TrustStoreEmptyOrUnreadable
  \/ kindOf e = TrustStoreNoValidCertificates.
Proof.
  destruct (nonEmpty (TrustStore settings)) eqn:H.
  - destruct (value (getCerts env (TrustStore settings)))
      as [pool [err|]] eqn:G.
    + rewrite (configureTLS_failed _ _ _ _ _ H G). act_simpl.
      intros E. injection E as <-.
      apply (getCerts_error_kind (TrustStore settings)).
      now rewrite G.
    + rewrite (configureTLS_loaded _ _ _ _ H G). discriminate.
  - rewrite (configureTLS_unset _ _ _ H). discriminate.
Qed.

Lemma configureSASL_error (config : Config) (e : Error) :
  value (configureSASL settings config) = Fail e ->
  e = ErrPasswordMissing (User settings).
Proof.
  rewrite configureSASL_cases.
  destruct (nonEmpty (User settings)); [|discriminate].
  destruct (Nat.eqb (String.length (Password settings)) 0);
    [|discriminate].
  act_simpl. congruence.
Qed.

(** The class of every error the builder can return. *)
Lemma getKafkaConnection_error (e : Error) :
  value (getKafkaConnection env settings) = Fail e ->
  (exists broker err,
      In broker (Split (BrokerUrls settings) ",")
      /\ validateBrokerUrl broker = Some err
      /\ e = ErrBrokerFormat broker err)
  \/ kindOf e <> InvalidConfiguration.
Proof.
  rewrite getKafkaConnection_stages,
    (connectBrokers_stages _ _ _ _ (Split_not_nil _ _)).
  destruct (validateBrokers 0 _ _) as [bs|e0] eqn:V.
  - cbv zeta.
    destruct (value (configureTLS env settings baseConfig))
      as [c1|e1] eqn:T.
    + destruct (value (configureSASL settings c1)) as [c2|e2] eqn:S.
      * act_simpl. intros H. right.
        destruct (construct_error_kind _ _ _ H) as [-> | ->]; discriminate.
      * act_simpl. intros H. injection H as <-. right.
        rewrite (configureSASL_error _ _ S). discriminate.
    + act_simpl. intros H. injection H as <-. right.
      destruct (configureTLS_error_kind _ _ T) as [K|[K|[K|K]]];
        rewrite K; discriminate.
  - act_simpl. intros H. injection H as <-. left.
    exact (validateBrokers_fail _ _ _ _ V).
Qed.

(** C10: the split list is never empty, so the builder never returns
    the "require at least one broker" error; an empty broker-list string
    fails in the validation of its one, empty, address. *)
Theorem empty_list_branch_unreachable :
  1 <= List.length (Split (BrokerUrls settings) ",")
  /\ (forall urls,
       value (getKafkaConnection env settings) <> Fail (ErrNoBroker urls))
  /\ (BrokerUrls settings = EmptyString ->
      getKafkaConnection env settings
      = (Fail (ErrBrokerFormat EmptyString ErrHostPortSections), [])).
Proof.
  split; [|split].
  - rewrite Split_length. lia.
  - intros urls H.
    destruct (getKafkaConnection_error _ H) as [(b & err & _ & _ & E)|K].
    + discriminate E.
    + now apply K.
  - intros E. rewrite getKafkaConnection_stages, E. reflexivity.
Qed.

(** C6: an empty broker-list string makes construction fail with an
    invalid-configuration error before anything is read from the
    filesystem or sent to the network; and a split list that is empty is
    rejected with an invalid-configuration error as well. *)
Theorem empty_broker_list_rejected :
  BrokerUrls settings = EmptyString ->
  (exists e,
      getKafkaConnection env settings = (Fail e, [])
      /\ kindOf e = InvalidConfiguration)
  /\ noFilesystem (trace (getKafkaConnection env settings))
  /\ noNetwork (trace (getKafkaConnection env settings))
  /\ (forall config,
       exists e,
         connectBrokers env settings config [] = (Fail e, [])
         /\ kindOf e = InvalidConfiguration).
Proof.
  intros E.
  assert (R : getKafkaConnection env settings
              = (Fail (ErrBrokerFormat EmptyString ErrHostPortSections),
                 [])).
  { rewrite getKafkaConnection_stages, E. reflexivity. }
  rewrite R. repeat split.
  - eexists. split; reflexivity.
  - intros config. eexists. split; reflexivity.
Qed.

End BuilderOutcomes.

Lemma empty_list_branch_unreachable_witness :
  getKafkaConnection mixedStore emptySettings
  = (Fail (ErrBrokerFormat EmptyString ErrHostPortSections), []).
Proof.
  apply (proj2 (proj2 (empty_list_branch_unreachable mixedStore
                         emptySettings))).
  reflexivity.
Defined.

Example bad_broker_rejected :
  getKafkaConnection mixedStore
    {| BrokerUrls := "bad-broker"; User := ""; Password := "";
       TrustStore := "" |}
  = (Fail (ErrBrokerFormat "bad-broker" ErrHostPortSections), []).
Proof. reflexivity. Qed.

Example two_brokers_accepted :
  validateBrokers 0 (Split (BrokerUrls plainSettings) ",")
    (repeat EmptyString 2)
  = Ok ["10.0.0.1:9092"; "10.0.0.2:9092"].
Proof. reflexivity. Qed.

Lemma empty_broker_list_rejected_witness :
  (exists e,
      getKafkaConnection mixedStore emptySettings = (Fail e, [])
      /\ kindOf e = InvalidConfiguration)
  /\ noFilesystem (trace (getKafkaConnection mixedStore emptySettings))
  /\ noNetwork (trace (getKafkaConnection mixedStore emptySettings))
  /\ (forall config,
       exists e,
         connectBrokers mixedStore emptySettings config [] = (Fail e, [])
         /\ kindOf e = InvalidConfiguration).
Proof.
  apply (empty_broker_list_rejected mixedStore emptySettings). reflexivity.
Defined.

(** The text of the error for an empty broker list names the empty
    address. *)
Example empty_broker_list_message :
  option_map errorString
    (match value (getKafkaConnection mixedStore emptySettings) with
     | Fail e => Some e
     | Ok _ => None
     end)
  = Some ("BrokerUrl [] format invalid for reason: [BrokerUrl must be composed of sections like "
            ++ dquote ++ "host:port" ++ dquote ++ "]").
Proof. reflexivity. Qed.

Lemma length_zero_empty (s : string) :
  Nat.eqb (String.length s) 0 = true <-> s = EmptyString.
Proof. destruct s; simpl; split; intros H; congruence. Qed.

Section CredentialsAndTLS.

Variable env : Env.
Variable settings : Settings.

Lemma validateBrokers_urls (urls : list string) :
  allValid urls ->
  validateBrokers 0 urls (repeat EmptyString (List.length urls)) = Ok urls.
Proof. intros H. exact (validateBrokers_allValid [] urls H). Qed.

(** C2, as the code has it: with a user name and no password,
    construction fails and nothing is sent to the network.  The error is
    the missing-credential error when every broker address is valid and
    the trust store is unset or loads; the password is looked at after
    the trust store, so a trust store that is set has been read from the
    filesystem by then. *)
Theorem missing_password_rejected :
  nonEmpty (User settings) = true ->
  Password settings = EmptyString ->
  let r := getKafkaConnection env settings in
  (exists e, value r = Fail e)
  /\ noNetwork (trace r)
  /\ (allValid (Split (BrokerUrls settings) ",") ->
      nonEmpty (TrustStore settings) = false
      \/ snd (value (getCerts env (TrustStore settings))) = None ->
      value r = Fail (ErrPasswordMissing (User settings))
      /\ kindOf (ErrPasswordMissing (User settings)) = MissingCredential
      /\ (nonEmpty (TrustStore settings) = false ->
          noFilesystem (trace r))
      /\ (nonEmpty (TrustStore settings) = true ->
          In (FsStat (TrustStore settings)) (trace r))).
Proof.
  intros U P r. subst r.
  assert (S : forall c, configureSASL settings c
                        = (Fail (ErrPasswordMissing (User settings)), [])).
  { intros c. rewrite configureSASL_cases, U, P. reflexivity. }
  rewrite getKafkaConnection_stages,
    (connectBrokers_stages _ _ _ _ (Split_not_nil _ _)).
  cbv zeta.
  split; [|split].
  - destruct (validateBrokers 0 _ _); [|act_simpl; eauto].
    destruct (value (configureTLS env settings baseConfig));
      [|act_simpl; eauto].
    rewrite S. act_simpl. eauto.
  - destruct (validateBrokers 0 _ _); [|reflexivity].
    pose proof (configureTLS_noNetwork env settings baseConfig) as T.
    destruct (value (configureTLS env settings baseConfig)).
    + rewrite S. act_simpl.
      change (?e :: ?t) with ([e] ++ t)%list.
      rewrite noNetwork_app. split; [reflexivity|exact T].
    + act_simpl. change (?e :: ?t) with ([e] ++ t)%list.
      rewrite noNetwork_app. split; [reflexivity|exact T].
  - intros V T. rewrite (validateBrokers_urls _ V).
    destruct T as [T|T].
    + rewrite (configureTLS_unset _ _ _ T), T. act_simpl. rewrite S.
      act_simpl. repeat split; try reflexivity. discriminate.
    + destruct (nonEmpty (TrustStore settings)) eqn:N.
      * destruct (value (getCerts env (TrustStore settings)))
          as [pool err] eqn:G.
        simpl in T. subst err.
        rewrite (configureTLS_loaded _ _ _ _ N G). act_simpl. rewrite S.
        act_simpl. repeat split; try discriminate.
        intros _. destruct (getCerts_stats env (TrustStore settings))
          as [t ->].
        right. now left.
      * rewrite (configureTLS_unset _ _ _ N). act_simpl. rewrite S.
        act_simpl. repeat split; try reflexivity. discriminate.
Qed.

(** The truststore block on every input: when the broker addresses are
    valid, the trust store is set and loads, and the SASL block passes,
    the configuration handed to the client constructors, and kept in the
    handle, has transport encryption enabled, the loaded pool as
    [RootCAs], and [InsecureSkipVerify] set to [true]. *)
Theorem truststore_configuration (pool : CertPool) :
  allValid (Split (BrokerUrls settings) ",") ->
  nonEmpty (TrustStore settings) = true ->
  value (getCerts env (TrustStore settings)) = (pool, None) ->
  nonEmpty (User settings) = false \/ Password settings <> EmptyString ->
  let r := getKafkaConnection env settings in
  exists config tls,
    In (NetNewSyncProducer (Split (BrokerUrls settings) ",") config)
       (trace r)
    /\ Net_TLS_Enable config = true
    /\ Net_TLS_Config config = Some tls
    /\ RootCAs tls = pool
    /\ InsecureSkipVerify tls = true
    /\ (forall conn, value r = Ok conn -> kafkaConfig conn = config).
Proof.
  intros V N G S r. subst r.
  rewrite getKafkaConnection_stages,
    (connectBrokers_stages _ _ _ _ (Split_not_nil _ _)).
  rewrite (validateBrokers_urls _ V). cbv zeta.
  rewrite (configureTLS_loaded _ _ _ _ N G). act_simpl.
  set (tls := {| RootCAs := pool; InsecureSkipVerify := true |}).
  set (c1 := setTLS baseConfig true tls).
  assert (C : exists c2,
             configureSASL settings c1
             = (Ok c2, trace (configureSASL settings c1))
             /\ Net_TLS_Enable c2 = true /\ Net_TLS_Config c2 = Some tls).
  { rewrite configureSASL_cases.
    destruct (nonEmpty (User settings)) eqn:U.
    - destruct (Nat.eqb (String.length (Password settings)) 0) eqn:L.
      + apply length_zero_empty in L. destruct S; [discriminate|tauto].
      + eexists. repeat split.
    - eexists. repeat split. }
  destruct C as (c2 & E & C1 & C2). rewrite E. act_simpl.
  exists c2, tls. repeat split; auto.
  - destruct (construct_first env (Split (BrokerUrls settings) ",") c2) as [t ->].
    right. apply in_or_app. right. apply in_or_app. right. now left.
  - intros conn H. now apply (construct_handle env (Split (BrokerUrls settings) ",") c2 conn).
Qed.

End CredentialsAndTLS.

Lemma missing_password_rejected_witness :
  let r := getKafkaConnection mixedStore noPasswordSettings in
  (exists e, value r = Fail e)
  /\ noNetwork (trace r)
  /\ (allValid (Split (BrokerUrls noPasswordSettings) ",") ->
      nonEmpty (TrustStore noPasswordSettings) = false
      \/ snd (value (getCerts mixedStore (TrustStore noPasswordSettings)))
         = None ->
      value r = Fail (ErrPasswordMissing (User noPasswordSettings))
      /\ kindOf (ErrPasswordMissing (User noPasswordSettings))
         = MissingCredential
      /\ (nonEmpty (TrustStore noPasswordSettings) = false ->
          noFilesystem (trace r))
      /\ (nonEmpty (TrustStore noPasswordSettings) = true ->
          In (FsStat (TrustStore noPasswordSettings)) (trace r))).
Proof.
  apply (missing_password_rejected mixedStore noPasswordSettings);
    reflexivity.
Defined.

(** C2 read literally fails: with a trust store set, the store is read
    from the filesystem before the missing password is reported. *)
Lemma missing_password_reported_after_truststore :
  let r := getKafkaConnection mixedStore noPasswordSettings in
  value r = Fail (ErrPasswordMissing "u")
  /\ filter isFilesystem (trace r)
     = [FsStat "/ts"; FsReadDir "/ts"; FsReadFile "/ts/ca.pem";
        FsReadFile "/ts/notes.txt"]
  /\ ~ noFilesystem (trace r).
Proof.
  vm_compute. repeat split. discriminate.
Qed.

(** And with a trust store that does not load, the error is the trust
    store's, not the missing credential. *)
Example missing_password_masked_by_truststore :
  value (getKafkaConnection mixedStore
           {| BrokerUrls := "h:9092"; User := "u"; Password := "";
              TrustStore := "/nowhere" |})
  = Fail (ErrTrustStoreMissing "/nowhere").
Proof. reflexivity. Qed.

Lemma truststore_configuration_witness :
  let r := getKafkaConnection liveStore tlsSettings in
  exists config tls,
    In (NetNewSyncProducer (Split (BrokerUrls tlsSettings) ",") config)
       (trace r)
    /\ Net_TLS_Enable config = true
    /\ Net_TLS_Config config = Some tls
    /\ RootCAs tls = [sampleCert]
    /\ InsecureSkipVerify tls = true
    /\ (forall conn, value r = Ok conn -> kafkaConfig conn = config).
Proof.
  apply (truststore_configuration liveStore tlsSettings [sampleCert]).
  - repeat constructor.
  - reflexivity.
  - reflexivity.
  - left. reflexivity.
Defined.

(** C5: where the code departs from it.  In [liveStore] the trust store
    [/ts] of [tlsSettings] loads one certificate and the handle is built.
    Its TLS configuration has that pool as [RootCAs] and has
    [InsecureSkipVerify] set to [true], the flag under which [crypto/tls]
    accepts any certificate the peer presents and any host name in it: the
    pool the code loaded, refused to accept empty, and installed is not
    what decides whether the peer is trusted. *)
Theorem truststore_installed_with_skip_verify :
  exists conn,
    getKafkaConnection liveStore tlsSettings
    = (Ok conn,
       [brokersLogged ["h:9092"];
        FsStat "/ts"; FsReadDir "/ts";
        FsReadFile "/ts/ca.pem"; FsReadFile "/ts/notes.txt";
        truststoreLogged "/ts";
        NetNewSyncProducer ["h:9092"] (kafkaConfig conn);
        NetNewConsumer ["h:9092"] (kafkaConfig conn)])
    /\ Net_TLS_Enable (kafkaConfig conn) = true
    /\ Net_TLS_Config (kafkaConfig conn)
       = Some {| RootCAs := [sampleCert]; InsecureSkipVerify := true |}.
Proof.
  exists {| kafkaConfig := expectedConfig liveStore tlsSettings;
            brokers := ["h:9092"];
            syncProducer := {| producerId := 1; producerClose := None |};
            consumer := {| consumerId := 2; consumerClose := None |} |}.
  split; [|split]; vm_compute; reflexivity.
Qed.

(** ** The connection key *)

Lemma append_empty_r (s : string) : s ++ EmptyString = s.
Proof. induction s as [|c s IH]; simpl; [reflexivity|now rewrite IH]. Qed.

Lemma append_assoc (a b c : string) : (a ++ b) ++ c = a ++ (b ++ c).
Proof. induction a as [|x a IH]; simpl; [reflexivity|now rewrite IH]. Qed.

Lemma nonEmpty_false (s : string) : nonEmpty s = false -> s = EmptyString.
Proof.
  unfold nonEmpty. destruct (String.eqb s EmptyString) eqn:E; [|discriminate].
  intros _. now apply String.eqb_eq.
Qed.

(** C7: the key is the broker-list field, then the trust-store path if it
    is not empty, then the user name if it is not empty, with nothing in
    between; so it is the plain concatenation of the three fields, and
    settings that agree on them have the same key. *)
Theorem getConnectionKey_concatenation (settings : Settings) :
  getConnectionKey settings
  = BrokerUrls settings
      ++ (if nonEmpty (TrustStore settings) then TrustStore settings
          else EmptyString)
      ++ (if nonEmpty (User settings) then User settings else EmptyString)
  /\ getConnectionKey settings
     = BrokerUrls settings ++ TrustStore settings ++ User settings
  /\ (forall other,
       BrokerUrls other = BrokerUrls settings ->
       TrustStore other = TrustStore settings ->
       User other = User settings ->
       getConnectionKey other = getConnectionKey settings).
Proof.
  assert (K : forall s,
             getConnectionKey s = BrokerUrls s ++ TrustStore s ++ User s).
  { intros s. unfold getConnectionKey. cbv zeta. simpl append at 1.
    destruct (nonEmpty (TrustStore s)) eqn:T;
      destruct (nonEmpty (User s)) eqn:U;
      try rewrite (nonEmpty_false _ T); try rewrite (nonEmpty_false _ U);
      simpl; rewrite ?append_empty_r, ?append_assoc; reflexivity. }
  split; [|split].
  - rewrite K.
    destruct (nonEmpty (TrustStore settings)) eqn:T;
      destruct (nonEmpty (User settings)) eqn:U;
      try rewrite (nonEmpty_false _ T); try rewrite (nonEmpty_false _ U);
      reflexivity.
  - apply K.
  - intros other B T U. rewrite !K. congruence.
Qed.

Example getConnectionKey_plain :
  getConnectionKey plainSettings = "10.0.0.1:9092,10.0.0.2:9092".
Proof. reflexivity. Qed.

(** C8: the key is not injective. *)
Theorem getConnectionKey_not_injective :
  exists s1 s2 : Settings,
    s1 <> s2
    /\ BrokerUrls s1 = "AB" /\ TrustStore s1 = "C"
    /\ BrokerUrls s2 = "A" /\ TrustStore s2 = "BC"
    /\ getConnectionKey s1 = getConnectionKey s2.
Proof.
  exists {| BrokerUrls := "AB"; User := ""; Password := "";
            TrustStore := "C" |},
         {| BrokerUrls := "A"; User := ""; Password := "";
            TrustStore := "BC" |}.
  repeat split. discriminate.
Qed.

(** ** Shutdown *)

(** C9: [Stop] closes the producer first.  When that fails the error is
    returned and the consumer is not closed; when it succeeds the consumer
    is closed next and the outcome of that close is returned. *)
Theorem Stop_closes_in_order (c : KafkaConnect) :
  (exists t, trace (Stop c) = ProducerClose (syncProducer c) :: t)
  /\ (forall e,
       producerClose (syncProducer c) = Some e ->
       Stop c = (Some e, [ProducerClose (syncProducer c)]))
  /\ (producerClose (syncProducer c) = None ->
      Stop c = (consumerClose (consumer c),
                [ProducerClose (syncProducer c);
                 ConsumerClose (consumer c)])).
Proof.
  unfold Stop, SyncProducer_Close, Consumer_Close.
  split; [|split].
  - act_simpl. simpl. eauto.
  - intros e H. rewrite (act_eta (bind _ _)). act_simpl. rewrite H.
    reflexivity.
  - intros H. rewrite (act_eta (bind _ _)). act_simpl. rewrite H.
    act_simpl. now destruct (consumerClose (consumer c)).
Qed.

Lemma Stop_closes_in_order_witness :
  Stop stuckHandle
  = (Some (ErrExternal "busy"), [ProducerClose (syncProducer stuckHandle)])
  /\ Stop halfStuckHandle
     = (Some (ErrExternal "late"),
        [ProducerClose (syncProducer halfStuckHandle);
         ConsumerClose (consumer halfStuckHandle)]).
Proof.
  split.
  - apply (proj1 (proj2 (Stop_closes_in_order stuckHandle))). reflexivity.
  - apply (proj2 (proj2 (Stop_closes_in_order halfStuckHandle))).
    reflexivity.
Defined.

(** * Further properties of the code *)

(** ** Local and network events *)

Lemma allLocal_app (t1 t2 : list Event) :
  allLocal (t1 ++ t2) <-> allLocal t1 /\ allLocal t2.
Proof. unfold allLocal. rewrite forallb_app. apply andb_true_iff. Qed.

Lemma allLocal_noNetwork (t : list Event) : allLocal t -> noNetwork t.
Proof.
  unfold allLocal, noNetwork. rewrite !forallb_forall.
  intros H e He. specialize (H e He). now destruct e.
Qed.

Lemma allLocal_noClose (t : list Event) : allLocal t -> noClose t.
Proof.
  unfold allLocal, noClose. rewrite !forallb_forall.
  intros H e He. specialize (H e He). now destruct e.
Qed.

Lemma allLocal_networkEvents (t : list Event) :
  allLocal t -> networkEvents t = [].
Proof.
  unfold allLocal, networkEvents.
  induction t as [|e t IH]; simpl; [reflexivity|].
  rewrite andb_true_iff. intros [He Ht].
  destruct e; try discriminate He; simpl; auto.
Qed.

Lemma networkEvents_app (t1 t2 : list Event) :
  networkEvents (t1 ++ t2) = (networkEvents t1 ++ networkEvents t2)%list.
Proof. apply filter_app. Qed.

Lemma loadCertFiles_allLocal (env : Env) (trustStore : string)
    (names : list string) (certPool : CertPool) :
  allLocal (trace (loadCertFiles env trustStore names certPool)).
Proof.
  revert certPool. induction names as [|name rest IH]; intros certPool.
  - reflexivity.
  - rewrite loadCertFiles_cons. unfold ioutil_ReadFile. act_simpl.
    rewrite !allLocal_app. split; [split; reflexivity|].
    destruct (fsReadFile env (trustStore ++ PathSeparator ++ name))
      as [[data|]|]; act_simpl; rewrite ?allLocal_app;
      repeat split; apply IH.
Qed.

Lemma getCerts_allLocal (env : Env) (trustStore : string) :
  allLocal (trace (getCerts env trustStore)).
Proof.
  unfold getCerts, os_Stat. act_simpl.
  assert (R : allLocal (trace (readTrustStore env trustStore NewCertPool))).
  { unfold readTrustStore, ioutil_ReadDir. act_simpl.
    destruct (fsReadDir env trustStore) as [names|]; [|reflexivity].
    destruct (Nat.eqb (List.length names) 0); [reflexivity|].
    act_simpl. rewrite !allLocal_app. repeat split.
    - apply loadCertFiles_allLocal.
    - now destruct (List.length _ <? 1)%nat. }
  destruct (fsStat env trustStore) as [mode|]; [|reflexivity].
  destruct (FileMode.IsDir mode); [|destruct (FileMode.IsRegular mode)];
    rewrite ?allLocal_app; auto; repeat split; auto.
Qed.

Lemma construct_cases (env : Env) (bs : list string) (config : Config) :
  construct env bs config
  = match netNewSyncProducer env bs config with
    | inl err =>
        (Fail (ErrSyncProducer err), [NetNewSyncProducer bs config])
    | inr p =>
        match netNewConsumer env bs config with
        | inl err =>
            (Fail (ErrConsumer err),
             [NetNewSyncProducer bs config; NetNewConsumer bs config])
        | inr c =>
            (Ok {| kafkaConfig := config; brokers := bs;
                   syncProducer := p; consumer := c |},
             [NetNewSyncProducer bs config; NetNewConsumer bs config])
        end
    end.
Proof.
  unfold construct, sarama_NewSyncProducer, sarama_NewConsumer.
  rewrite (act_eta (bind _ _)). act_simpl.
  destruct (netNewSyncProducer env bs config) as [e|p]; act_simpl;
    [reflexivity|].
  destruct (netNewConsumer env bs config) as [e|c]; act_simpl; reflexivity.
Qed.

(** ** The shape of every run of the builder *)

Lemma validateBrokers_first_invalid (n : nat) (pre post bs : list string)
    (b : string) (err : Error) :
  allValid pre -> validateBrokerUrl b = Some err ->
  validateBrokers n (pre ++ b :: post) bs = Fail (ErrBrokerFormat b err).
Proof.
  revert n bs. induction pre as [|x pre IH]; intros n bs V B; simpl.
  - now rewrite B.
  - inversion V as [|? ? Hx Hp]; subst. rewrite Hx. now apply IH.
Qed.

Lemma allValid_or_first_invalid (l : list string) :
  allValid l
  \/ exists pre b post err,
       l = (pre ++ b :: post)%list /\ allValid pre
       /\ validateBrokerUrl b = Some err.
Proof.
  induction l as [|x l IH]; [left; constructor|].
  destruct (validateBrokerUrl x) as [err|] eqn:X.
  - right. exists [], x, l, err. repeat split; auto. constructor.
  - destruct IH as [V|(pre & b & post & err & -> & V & B)].
    + left. now constructor.
    + right. exists (x :: pre), b, post, err. repeat split; auto.
      now constructor.
Qed.

Section BuilderShape.

Variable env : Env.
Variable settings : Settings.

Lemma configureTLS_allLocal (config : Config) :
  allLocal (trace (configureTLS env settings config)).
Proof.
  destruct (nonEmpty (TrustStore settings)) eqn:H.
  - destruct (value (getCerts env (TrustStore settings)))
      as [pool [err|]] eqn:G.
    + rewrite (configureTLS_failed _ _ _ _ _ H G). apply getCerts_allLocal.
    + rewrite (configureTLS_loaded _ _ _ _ H G). act_simpl.
      rewrite allLocal_app. split; [apply getCerts_allLocal|reflexivity].
  - now rewrite (configureTLS_unset _ _ _ H).
Qed.

Lemma configureSASL_allLocal (config : Config) :
  allLocal (trace (configureSASL settings config)).
Proof.
  rewrite configureSASL_cases.
  destruct (nonEmpty (User settings)); [|reflexivity].
  now destruct (Nat.eqb (String.length (Password settings)) 0).
Qed.

(** When the trust store passes, the truststore block gives the first
    half of [expectedConfig]; when the SASL block passes too, the
    configuration is [expectedConfig]. *)
Lemma configure_expected :
  tlsPasses env settings -> saslPasses settings ->
  exists c1,
    value (configureTLS env settings baseConfig) = Ok c1
    /\ value (configureSASL settings c1)
       = Ok (expectedConfig env settings).
Proof.
  intros T S. unfold expectedConfig. cbv zeta.
  assert (P : forall c,
             value (configureSASL settings c)
             = Ok (if nonEmpty (User settings)
                   then setSASL c true (User settings) (Password settings)
                   else c)).
  { intros c. rewrite configureSASL_cases.
    destruct (nonEmpty (User settings)) eqn:U; [|reflexivity].
    destruct (Nat.eqb (String.length (Password settings)) 0) eqn:L;
      [|reflexivity].
    apply length_zero_empty in L. destruct S as [S|S]; [congruence|tauto]. }
  destruct (nonEmpty (TrustStore settings)) eqn:N.
  - destruct T as [T|T]; [congruence|].
    destruct (value (getCerts env (TrustStore settings)))
      as [pool err] eqn:G.
    simpl in T. subst err.
    rewrite (configureTLS_loaded _ _ _ _ N G). act_simpl.
    eexists. split; [reflexivity|]. apply P.
  - rewrite (configureTLS_unset _ _ _ N). act_simpl.
    eexists. split; [reflexivity|]. apply P.
Qed.

(** A run with valid addresses whose trust store and SASL blocks pass:
    local events, then the constructions with [expectedConfig]. *)
Lemma getKafkaConnection_constructs :
  allValid (Split (BrokerUrls settings) ",") ->
  tlsPasses env settings -> saslPasses settings ->
  exists t,
    allLocal t
    /\ getKafkaConnection env settings
       = (value (construct env (Split (BrokerUrls settings) ",")
                   (expectedConfig env settings)),
          (t ++ trace (construct env (Split (BrokerUrls settings) ",")
                         (expectedConfig env settings)))%list).
Proof.
  intros V T S.
  destruct (configure_expected T S) as (c1 & E1 & E2).
  rewrite getKafkaConnection_stages,
    (connectBrokers_stages _ _ _ _ (Split_not_nil _ _)).
  rewrite (validateBrokers_urls _ V). cbv zeta. rewrite E1, E2.
  exists (brokersLogged (Split (BrokerUrls settings) ",")
            :: trace (configureTLS env settings baseConfig)
            ++ trace (configureSASL settings c1))%list.
  split.
  - change (?e :: ?t) with ([e] ++ t)%list.
    rewrite !allLocal_app. repeat split.
    + apply configureTLS_allLocal.
    + apply configureSASL_allLocal.
  - simpl. now rewrite <- app_assoc.
Qed.

(** Every run: an invalid address, or a failed trust store or SASL block
    after local events only, or the constructions. *)
Lemma getKafkaConnection_shape :
  (exists pre b post err,
      Split (BrokerUrls settings) "," = (pre ++ b :: post)%list
      /\ allValid pre /\ validateBrokerUrl b = Some err
      /\ getKafkaConnection env settings
         = (Fail (ErrBrokerFormat b err), []))
  \/ (allValid (Split (BrokerUrls settings) ",")
      /\ ~ (tlsPasses env settings /\ saslPasses settings)
      /\ exists e t,
           getKafkaConnection env settings = (Fail e, t) /\ allLocal t)
  \/ (allValid (Split (BrokerUrls settings) ",")
      /\ tlsPasses env settings /\ saslPasses settings
      /\ exists t,
           allLocal t
           /\ getKafkaConnection env settings
              = (value (construct env (Split (BrokerUrls settings) ",")
                          (expectedConfig env settings)),
                 (t ++ trace (construct env
                                (Split (BrokerUrls settings) ",")
                                (expectedConfig env settings)))%list)).
Proof.
  destruct (allValid_or_first_invalid (Split (BrokerUrls settings) ","))
    as [V|(pre & b & post & err & E & V & B)].
  - right.
    assert (DT : tlsPasses env settings \/ ~ tlsPasses env settings).
    { unfold tlsPasses.
      destruct (nonEmpty (TrustStore settings)); [|now left; left].
      destruct (snd (value (getCerts env (TrustStore settings))));
        [right|left; now right].
      intros [H|H]; discriminate. }
    assert (DS : saslPasses settings \/ ~ saslPasses settings).
    { unfold saslPasses.
      destruct (nonEmpty (User settings)); [|now left; left].
      destruct (Password settings) as [|c p];
        [right|left; right; discriminate].
      intros [H|H]; [discriminate|now apply H]. }
    destruct DT as [T|T]; [destruct DS as [S|S]|].
    + right. repeat split; auto.
      now apply getKafkaConnection_constructs.
    + left. repeat split; auto; [tauto|].
      rewrite getKafkaConnection_stages,
        (connectBrokers_stages _ _ _ _ (Split_not_nil _ _)).
      rewrite (validateBrokers_urls _ V). cbv zeta.
      pose proof (configureTLS_allLocal baseConfig) as LT.
      destruct (value (configureTLS env settings baseConfig)) as [c1|e].
      * pose proof (configureSASL_allLocal c1) as LS.
        destruct (value (configureSASL settings c1)) as [c2|e] eqn:E.
        -- exfalso. apply S. unfold saslPasses.
           rewrite configureSASL_cases in E.
           destruct (nonEmpty (User settings)); [|now left].
           destruct (Nat.eqb (String.length (Password settings)) 0) eqn:L;
             [discriminate E|].
           right. intros P. rewrite P in L. discriminate L.
        -- eexists. eexists. split; [reflexivity|].
           change (?e :: ?t) with ([e] ++ t)%list.
           rewrite !allLocal_app. repeat split; auto.
      * eexists. eexists. split; [reflexivity|].
        change (?e :: ?t) with ([e] ++ t)%list.
        rewrite !allLocal_app. repeat split; auto.
    + left. repeat split; auto; [tauto|].
      rewrite getKafkaConnection_stages,
        (connectBrokers_stages _ _ _ _ (Split_not_nil _ _)).
      rewrite (validateBrokers_urls _ V). cbv zeta.
      pose proof (configureTLS_allLocal baseConfig) as LT.
      destruct (value (configureTLS env settings baseConfig)) as [c1|e] eqn:E.
      * exfalso. apply T. unfold tlsPasses.
        destruct (nonEmpty (TrustStore settings)) eqn:N; [|now left].
        right.
        destruct (value (getCerts env (TrustStore settings)))
          as [pool [err|]] eqn:G; [|reflexivity].
        rewrite (configureTLS_failed _ _ _ _ _ N G) in E. discriminate E.
      * eexists. eexists. split; [reflexivity|].
        change (?e :: ?t) with ([e] ++ t)%list.
        rewrite !allLocal_app. repeat split; auto.
  - left. exists pre, b, post, err. repeat split; auto.
    rewrite getKafkaConnection_stages,
      (connectBrokers_stages _ _ _ _ (Split_not_nil _ _)).
    rewrite E at 1. rewrite (validateBrokers_first_invalid _ _ _ _ _ _ V B).
    reflexivity.
Qed.

End BuilderShape.

(** ** What reaches the client constructors *)

Lemma expectedConfig_producer (env : Env) (settings : Settings) :
  Producer_RequiredAcks (expectedConfig env settings) = WaitForAll
  /\ Producer_Retry_Max (expectedConfig env settings) = 5%Z
  /\ Producer_Return_Errors (expectedConfig env settings) = true
  /\ Producer_Return_Successes (expectedConfig env settings) = true.
Proof.
  unfold expectedConfig. cbv zeta.
  destruct (nonEmpty (TrustStore settings));
    destruct (nonEmpty (User settings)); repeat split.
Qed.

(** A constructor call in a trace of the builder is made with the split
    broker list and [expectedConfig], after every check has passed. *)
Lemma network_event_expected (env : Env) (settings : Settings)
    (e : Event) :
  In e (trace (getKafkaConnection env settings)) ->
  isNetwork e = true ->
  (e = NetNewSyncProducer (Split (BrokerUrls settings) ",")
         (expectedConfig env settings)
   \/ e = NetNewConsumer (Split (BrokerUrls settings) ",")
            (expectedConfig env settings))
  /\ allValid (Split (BrokerUrls settings) ",")
  /\ tlsPasses env settings /\ saslPasses settings.
Proof.
  intros Hin Hnet.
  assert (L : forall t, allLocal t -> In e t -> False).
  { intros t Ht Hi. unfold allLocal in Ht. rewrite forallb_forall in Ht.
    specialize (Ht e Hi). destruct e; discriminate. }
  destruct (getKafkaConnection_shape env settings)
    as [(pre & b & post & err & _ & _ & _ & R)
       |[(V & _ & e0 & t & R & Ht)|(V & T & S & t & Ht & R)]];
    rewrite R in Hin; simpl in Hin.
  - contradiction.
  - exfalso. exact (L t Ht Hin).
  - repeat split; auto.
    apply in_app_or in Hin. destruct Hin as [Hin|Hin];
      [exfalso; exact (L t Ht Hin)|].
    rewrite construct_cases in Hin.
    destruct (netNewSyncProducer env _ _);
      [|destruct (netNewConsumer env _ _)]; simpl in Hin; intuition.
Qed.

(** X1: whatever the settings, a producer or consumer is only ever
    constructed for the split broker list and with acknowledgement from
    all replicas, five retries, and both successes and errors returned. *)
Theorem constructors_get_producer_settings (env : Env)
    (settings : Settings) (addrs : list string) (config : Config) :
  In (NetNewSyncProducer addrs config)
     (trace (getKafkaConnection env settings))
  \/ In (NetNewConsumer addrs config)
        (trace (getKafkaConnection env settings)) ->
  addrs = Split (BrokerUrls settings) ","
  /\ Producer_RequiredAcks config = WaitForAll
  /\ Producer_Retry_Max config = 5%Z
  /\ Producer_Return_Errors config = true
  /\ Producer_Return_Successes config = true.
Proof.
  intros H.
  assert (E : addrs = Split (BrokerUrls settings) ","
              /\ config = expectedConfig env settings).
  { destruct H as [H|H];
      destruct (network_event_expected _ _ _ H eq_refl) as ([E|E] & _);
      inversion E; auto. }
  destruct E as [-> ->]. split; [reflexivity|].
  apply expectedConfig_producer.
Qed.

Lemma constructors_get_producer_settings_witness :
  Split (BrokerUrls saslSettings) "," = ["h:9092"; "k:9093"]
  /\ Producer_RequiredAcks (expectedConfig liveStore saslSettings)
     = WaitForAll
  /\ Producer_Retry_Max (expectedConfig liveStore saslSettings) = 5%Z
  /\ Producer_Return_Errors (expectedConfig liveStore saslSettings) = true
  /\ Producer_Return_Successes (expectedConfig liveStore saslSettings)
     = true.
Proof.
  destruct (constructors_get_producer_settings liveStore saslSettings
              ["h:9092"; "k:9093"] (expectedConfig liveStore saslSettings))
    as (E & H).
  - left. vm_compute. right. right. right. right. right. right. right.
    left. reflexivity.
  - split; [symmetry; exact E|exact H].
Defined.

(** X2: the SASL fields of the configuration a constructor receives.
    With a user they are enabled and carry the user and a password that is
    not empty; without a user they stay off and empty, so a password given
    without a user goes nowhere. *)
Theorem constructors_get_sasl (env : Env) (settings : Settings)
    (addrs : list string) (config : Config) :
  In (NetNewSyncProducer addrs config)
     (trace (getKafkaConnection env settings))
  \/ In (NetNewConsumer addrs config)
        (trace (getKafkaConnection env settings)) ->
  Net_SASL_Enable config = nonEmpty (User settings)
  /\ (nonEmpty (User settings) = true ->
      Net_SASL_User config = User settings
      /\ Net_SASL_Password config = Password settings
      /\ Password settings <> EmptyString)
  /\ (nonEmpty (User settings) = false ->
      Net_SASL_User config = EmptyString
      /\ Net_SASL_Password config = EmptyString).
Proof.
  intros H.
  assert (E : config = expectedConfig env settings /\ saslPasses settings).
  { destruct H as [H|H];
      destruct (network_event_expected _ _ _ H eq_refl)
        as ([E|E] & _ & _ & S);
      inversion E; auto. }
  destruct E as [-> S]. unfold expectedConfig. cbv zeta.
  destruct (nonEmpty (User settings)) eqn:U.
  - repeat split; try discriminate.
    destruct S as [S|S]; [congruence|exact S].
  - destruct (nonEmpty (TrustStore settings)); repeat split;
      discriminate.
Qed.

Lemma constructors_get_sasl_witness :
  Net_SASL_Enable (expectedConfig liveStore saslSettings) = true
  /\ Net_SASL_User (expectedConfig liveStore saslSettings) = "u"
  /\ Net_SASL_Password (expectedConfig liveStore saslSettings) = "p".
Proof.
  destruct (constructors_get_sasl liveStore saslSettings
              ["h:9092"; "k:9093"] (expectedConfig liveStore saslSettings))
    as (E & H & _).
  - left. vm_compute. right. right. right. right. right. right. right.
    left. reflexivity.
  - destruct (H eq_refl) as (A & B & _). repeat split; assumption.
Defined.

(** ** More on trust-store loading *)

Section TrustStoreMore.

Variable env : Env.
Variable trustStore : string.

Lemma poolOf_empty_iff (names : list string) :
  poolOf env trustStore names = []
  <-> entryCerts env trustStore names = [].
Proof.
  unfold poolOf. split.
  - intros H. destruct (entryCerts env trustStore names) as [|c l] eqn:E;
      [reflexivity|].
    exfalso. apply (fold_AddCert_nonempty (c :: l)); [discriminate|exact H].
  - intros ->. reflexivity.
Qed.

Lemma readTrustStore_value :
  value (readTrustStore env trustStore NewCertPool)
  = match fsReadDir env trustStore with
    | None => (NewCertPool, Some (ErrTrustStoreUnreadable trustStore))
    | Some [] => (NewCertPool, Some (ErrTrustStoreUnreadable trustStore))
    | Some names =>
        (poolOf env trustStore names,
         if (List.length (Subjects (poolOf env trustStore names)) <? 1)%nat
         then Some (ErrNoValidCerts trustStore) else None)
    end.
Proof.
  destruct (fsReadDir env trustStore) as [[|n names]|] eqn:D.
  - rewrite readTrustStore_unreadable; auto.
  - rewrite (readTrustStore_entries _ _ _ D); [reflexivity|discriminate].
  - rewrite readTrustStore_unreadable; auto.
Qed.

Lemma getCerts_value :
  value (getCerts env trustStore)
  = match fsStat env trustStore with
    | None => (NewCertPool, Some (ErrTrustStoreMissing trustStore))
    | Some mode =>
        if FileMode.IsRegular mode
        then (NewCertPool, Some (ErrTrustStoreNotDir trustStore))
        else value (readTrustStore env trustStore NewCertPool)
    end.
Proof.
  destruct (fsStat env trustStore) as [mode|] eqn:S.
  - destruct (FileMode.IsRegular mode) eqn:R.
    + unfold getCerts, os_Stat. act_simpl.
      now rewrite S, (IsRegular_not_IsDir _ R), R.
    + now rewrite (getCerts_not_regular _ _ _ S R).
  - unfold getCerts, os_Stat. act_simpl. now rewrite S.
Qed.

(** A load without error returns a pool that is not empty. *)
Lemma getCerts_ok_pool :
  snd (value (getCerts env trustStore)) = None ->
  fst (value (getCerts env trustStore)) <> [].
Proof.
  rewrite getCerts_value.
  destruct (fsStat env trustStore) as [mode|]; [|discriminate].
  destruct (FileMode.IsRegular mode); [discriminate|].
  rewrite readTrustStore_value.
  destruct (fsReadDir env trustStore) as [[|n names]|]; try discriminate.
  simpl fst. simpl snd. unfold Subjects. rewrite length_map.
  destruct (poolOf env trustStore (n :: names)) as [|c l]; simpl;
    discriminate.
Qed.

(** X3: the pool that comes back with an error is empty, and the pool
    of a successful load is not: loading succeeds exactly when the
    returned pool holds a certificate. *)
Theorem getCerts_error_iff_empty_pool :
  snd (value (getCerts env trustStore)) = None
  <-> fst (value (getCerts env trustStore)) <> [].
Proof.
  rewrite getCerts_value.
  destruct (fsStat env trustStore) as [mode|];
    [|simpl; split; [discriminate|intros H; now contradiction H]].
  destruct (FileMode.IsRegular mode);
    [simpl; split; [discriminate|intros H; now contradiction H]|].
  rewrite readTrustStore_value.
  destruct (fsReadDir env trustStore) as [[|n names]|];
    try (simpl; split; [discriminate|intros H; now contradiction H]).
  simpl fst. simpl snd. unfold Subjects. rewrite length_map.
  destruct (poolOf env trustStore (n :: names)) as [|c l]; simpl.
  - split; [discriminate|intros H; now contradiction H].
  - split; [discriminate|reflexivity].
Qed.

(** X4: loading succeeds exactly when the path is stat-ed as something
    other than a regular file, its listing can be read, and at least one
    entry can be read and holds a certificate. *)
Theorem getCerts_succeeds_iff :
  snd (value (getCerts env trustStore)) = None
  <-> exists mode names,
        fsStat env trustStore = Some mode
        /\ FileMode.IsRegular mode = false
        /\ fsReadDir env trustStore = Some names
        /\ entryCerts env trustStore names <> [].
Proof.
  rewrite getCerts_value. split.
  - destruct (fsStat env trustStore) as [mode|]; [|discriminate].
    destruct (FileMode.IsRegular mode) eqn:R; [discriminate|].
    rewrite readTrustStore_value.
    destruct (fsReadDir env trustStore) as [[|n names]|] eqn:D;
      try discriminate.
    simpl snd. unfold Subjects. rewrite length_map.
    destruct (poolOf env trustStore (n :: names)) as [|c l] eqn:P;
      [discriminate|].
    intros _. exists mode, (n :: names). repeat split; auto.
    intros E. apply poolOf_empty_iff in E. congruence.
  - intros (mode & names & -> & -> & D & E).
    rewrite readTrustStore_value, D.
    destruct names as [|n names]; [now contradiction E|].
    simpl snd. unfold Subjects. rewrite length_map.
    destruct (poolOf env trustStore (n :: names)) as [|c l] eqn:P;
      [|reflexivity].
    apply poolOf_empty_iff in P. contradiction.
Qed.

(** X5: whatever the entries hold, every entry is read, and the warnings
    are as many as the entries that could not be read. *)
Theorem getCerts_warns_per_unreadable (mode : Z) (names : list string) :
  fsStat env trustStore = Some mode ->
  FileMode.IsRegular mode = false ->
  fsReadDir env trustStore = Some names ->
  countWarnings (trace (getCerts env trustStore))
  = count (isUnreadable env trustStore) names
  /\ List.length (filter isReadFile (trace (getCerts env trustStore)))
     = List.length names.
Proof.
  intros S R D. rewrite (getCerts_not_regular _ _ _ S R).
  destruct names as [|n names].
  - rewrite readTrustStore_unreadable; auto.
  - rewrite (readTrustStore_entries _ _ _ D); [|discriminate].
    act_simpl.
    change (FsStat trustStore :: FsReadDir trustStore :: ?t)
      with ([FsStat trustStore; FsReadDir trustStore] ++ t)%list.
    split.
    + rewrite countWarnings_app.
      change (countWarnings [FsStat trustStore; FsReadDir trustStore])
        with 0.
      rewrite Nat.add_0_l. apply loadCertFiles_trace_warnings.
    + rewrite filter_app.
      change (filter isReadFile [FsStat trustStore; FsReadDir trustStore])
        with (@nil Event).
      rewrite app_nil_l, loadCertFiles_trace_reads.
      unfold readEvents. now rewrite length_map.
Qed.

End TrustStoreMore.

Lemma getCerts_warns_per_unreadable_witness :
  countWarnings (trace (getCerts mixedStore "/junk")) = 1
  /\ List.length (filter isReadFile (trace (getCerts mixedStore "/junk")))
     = 2.
Proof.
  apply (getCerts_warns_per_unreadable mixedStore "/junk" dirMode
           ["a.txt"; "b.bin"]); reflexivity.
Defined.

(** ** More on connection construction *)

Section BuilderMore.

Variable env : Env.
Variable settings : Settings.

(** X6: the TLS fields of the configuration a constructor receives.
    Without a trust store TLS stays off and no TLS configuration is set;
    with one, TLS is on and the root set is the loaded pool, which holds
    at least one certificate. *)
Theorem constructors_get_tls (addrs : list string) (config : Config) :
  In (NetNewSyncProducer addrs config)
     (trace (getKafkaConnection env settings))
  \/ In (NetNewConsumer addrs config)
        (trace (getKafkaConnection env settings)) ->
  Net_TLS_Enable config = nonEmpty (TrustStore settings)
  /\ (nonEmpty (TrustStore settings) = false ->
      Net_TLS_Config config = None)
  /\ (nonEmpty (TrustStore settings) = true ->
      exists tls,
        Net_TLS_Config config = Some tls
        /\ RootCAs tls = fst (value (getCerts env (TrustStore settings)))
        /\ RootCAs tls <> []).
Proof.
  intros H.
  assert (E : config = expectedConfig env settings
              /\ tlsPasses env settings).
  { destruct H as [H|H];
      destruct (network_event_expected _ _ _ H eq_refl)
        as ([E|E] & _ & T & _);
      inversion E; auto. }
  destruct E as [-> T]. unfold expectedConfig. cbv zeta.
  destruct (nonEmpty (TrustStore settings)) eqn:N.
  - destruct T as [T|T]; [congruence|].
    apply getCerts_ok_pool in T.
    destruct (nonEmpty (User settings)); repeat split; try discriminate;
      intros _; eexists; repeat split; exact T.
  - destruct (nonEmpty (User settings)); repeat split; discriminate.
Qed.

(** X7: the first address that does not validate stops the builder: its
    error is returned, wrapped with that address, and nothing has been
    logged, read or sent, whatever comes after it in the list. *)
Theorem first_invalid_broker_reported (pre post : list string)
    (b : string) (err : Error) :
  Split (BrokerUrls settings) "," = (pre ++ b :: post)%list ->
  allValid pre ->
  validateBrokerUrl b = Some err ->
  getKafkaConnection env settings = (Fail (ErrBrokerFormat b err), []).
Proof.
  intros E V B.
  rewrite getKafkaConnection_stages,
    (connectBrokers_stages _ _ _ _ (Split_not_nil _ _)).
  rewrite E at 1. rewrite (validateBrokers_first_invalid _ _ _ _ _ _ V B).
  reflexivity.
Qed.

(** X8: the builder stops without logging, reading or sending anything
    exactly when some address of the list does not validate. *)
Theorem invalid_address_iff_fails_at_once :
  (exists b,
      In b (Split (BrokerUrls settings) ",")
      /\ validateBrokerUrl b <> None)
  <-> exists b err,
        getKafkaConnection env settings
        = (Fail (ErrBrokerFormat b err), []).
Proof.
  split.
  - intros (b & Hin & Hb).
    destruct (getKafkaConnection_shape env settings)
      as [(pre & x & post & err & _ & _ & _ & R)
         |[(V & _)|(V & _)]]; eauto;
      unfold allValid in V; rewrite Forall_forall in V;
      now specialize (V b Hin).
  - intros (b & err & R).
    destruct (getKafkaConnection_shape env settings)
      as [(pre & x & post & e & E & _ & B & _)
         |[(_ & _ & e & t & R' & _)|(_ & _ & _ & t & _ & R')]].
    + exists x. split; [|congruence].
      rewrite E. apply in_or_app. right. now left.
    + rewrite getKafkaConnection_stages,
        (connectBrokers_stages _ _ _ _ (Split_not_nil _ _)) in R.
      destruct (validateBrokers 0 _ _) as [bs|e0] eqn:V.
      * cbv zeta in R.
        destruct (value (configureTLS env settings baseConfig));
          [destruct (value (configureSASL settings _))|]; discriminate R.
      * destruct (validateBrokers_fail _ _ _ _ V) as (x & e1 & Hin & Hx & _).
        exists x. split; [exact Hin|congruence].
    + rewrite getKafkaConnection_stages,
        (connectBrokers_stages _ _ _ _ (Split_not_nil _ _)) in R.
      destruct (validateBrokers 0 _ _) as [bs|e0] eqn:V.
      * cbv zeta in R.
        destruct (value (configureTLS env settings baseConfig));
          [destruct (value (configureSASL settings _))|]; discriminate R.
      * destruct (validateBrokers_fail _ _ _ _ V) as (x & e1 & Hin & Hx & _).
        exists x. split; [exact Hin|congruence].
Qed.

(** X9: an error of the trust-store loader is returned as it is, not
    wrapped, after the broker log entry and the loader's own events; the
    cluster is not contacted. *)
Theorem truststore_error_propagated (e : Error) :
  allValid (Split (BrokerUrls settings) ",") ->
  nonEmpty (TrustStore settings) = true ->
  snd (value (getCerts env (TrustStore settings))) = Some e ->
  getKafkaConnection env settings
  = (Fail e,
     brokersLogged (Split (BrokerUrls settings) ",")
       :: trace (getCerts env (TrustStore settings)))
  /\ networkEvents (trace (getKafkaConnection env settings)) = [].
Proof.
  intros V N G.
  destruct (value (getCerts env (TrustStore settings))) as [pool err] eqn:P.
  simpl in G. subst err.
  assert (R : getKafkaConnection env settings
              = (Fail e,
                 brokersLogged (Split (BrokerUrls settings) ",")
                   :: trace (getCerts env (TrustStore settings)))).
  { rewrite getKafkaConnection_stages,
      (connectBrokers_stages _ _ _ _ (Split_not_nil _ _)).
    rewrite (validateBrokers_urls _ V). cbv zeta.
    rewrite (configureTLS_failed _ _ _ _ _ N P). now act_simpl. }
  split; [exact R|]. rewrite R. act_simpl.
  apply allLocal_networkEvents.
  change (?x :: ?t) with ([x] ++ t)%list. rewrite allLocal_app.
  split; [reflexivity|apply getCerts_allLocal].
Qed.

(** X10: when the producer cannot be constructed, its error is returned
    wrapped as the producer error, and no consumer is constructed. *)
Theorem producer_failure_skips_consumer (err : Error) :
  allValid (Split (BrokerUrls settings) ",") ->
  tlsPasses env settings -> saslPasses settings ->
  netNewSyncProducer env (Split (BrokerUrls settings) ",")
    (expectedConfig env settings) = inl err ->
  value (getKafkaConnection env settings) = Fail (ErrSyncProducer err)
  /\ networkEvents (trace (getKafkaConnection env settings))
     = [NetNewSyncProducer (Split (BrokerUrls settings) ",")
          (expectedConfig env settings)].
Proof.
  intros V T S P.
  destruct (getKafkaConnection_constructs _ _ V T S) as (t & Ht & R).
  rewrite R, construct_cases, P. act_simpl. split; [reflexivity|].
  rewrite networkEvents_app, (allLocal_networkEvents _ Ht). reflexivity.
Qed.

(** X11: when the consumer cannot be constructed after the producer has
    been, its error is returned wrapped as the consumer error, and the
    producer that was constructed is not closed. *)
Theorem consumer_failure_leaves_producer_open (p : SyncProducer)
    (err : Error) :
  allValid (Split (BrokerUrls settings) ",") ->
  tlsPasses env settings -> saslPasses settings ->
  netNewSyncProducer env (Split (BrokerUrls settings) ",")
    (expectedConfig env settings) = inr p ->
  netNewConsumer env (Split (BrokerUrls settings) ",")
    (expectedConfig env settings) = inl err ->
  value (getKafkaConnection env settings) = Fail (ErrConsumer err)
  /\ In (NetNewSyncProducer (Split (BrokerUrls settings) ",")
           (expectedConfig env settings))
        (trace (getKafkaConnection env settings))
  /\ ~ In (ProducerClose p) (trace (getKafkaConnection env settings)).
Proof.
  intros V T S P C.
  destruct (getKafkaConnection_constructs _ _ V T S) as (t & Ht & R).
  rewrite R, construct_cases, P, C. act_simpl. repeat split.
  - apply in_or_app. right. now left.
  - intros H. apply in_app_or in H. destruct H as [H|H].
    + unfold allLocal in Ht. rewrite forallb_forall in Ht.
      specialize (Ht _ H). discriminate Ht.
    + simpl in H. destruct H as [H|[H|[]]]; discriminate H.
Qed.

(** X12: when every check passes and both constructions succeed, the
    handle holds the split broker list, the configuration the
    constructors received, and the two objects they returned, which the
    accessors give back. *)
Theorem getKafkaConnection_builds_handle (p : SyncProducer) (c : Consumer) :
  allValid (Split (BrokerUrls settings) ",") ->
  tlsPasses env settings -> saslPasses settings ->
  netNewSyncProducer env (Split (BrokerUrls settings) ",")
    (expectedConfig env settings) = inr p ->
  netNewConsumer env (Split (BrokerUrls settings) ",")
    (expectedConfig env settings) = inr c ->
  exists conn,
    value (getKafkaConnection env settings) = Ok conn
    /\ Handle.Producer conn = p /\ Handle.Consumer conn = c
    /\ brokers conn = Split (BrokerUrls settings) ","
    /\ kafkaConfig conn = expectedConfig env settings.
Proof.
  intros V T S P C.
  destruct (getKafkaConnection_constructs _ _ V T S) as (t & Ht & R).
  rewrite R, construct_cases, P, C. act_simpl.
  eexists. repeat split.
Qed.

(** X13: a handle is returned only when every address validates, the
    trust store and SASL blocks pass, and both constructors succeed; its
    accessors give the objects the constructors returned. *)
Theorem handle_only_after_all_checks (conn : KafkaConnect) :
  value (getKafkaConnection env settings) = Ok conn ->
  allValid (Split (BrokerUrls settings) ",")
  /\ tlsPasses env settings /\ saslPasses settings
  /\ netNewSyncProducer env (Split (BrokerUrls settings) ",")
       (expectedConfig env settings) = inr (Handle.Producer conn)
  /\ netNewConsumer env (Split (BrokerUrls settings) ",")
       (expectedConfig env settings) = inr (Handle.Consumer conn)
  /\ brokers conn = Split (BrokerUrls settings) ","
  /\ kafkaConfig conn = expectedConfig env settings.
Proof.
  intros H.
  destruct (getKafkaConnection_shape env settings)
    as [(pre & b & post & err & _ & _ & _ & R)
       |[(V & _ & e0 & t & R & Ht)|(V & T & S & t & Ht & R)]];
    rewrite R in H; autorewrite with act in H; try discriminate H.
  rewrite construct_cases in H.
  destruct (netNewSyncProducer env _ _) as [e|p]; [discriminate H|].
  destruct (netNewConsumer env _ _) as [e|c]; [discriminate H|].
  autorewrite with act in H. injection H as <-. repeat split; auto.
Qed.

(** X14: in every run the logging and filesystem events come first and
    the constructor calls last: nothing is read after the cluster has been
    contacted, each constructor is called at most once, the consumer only
    after the producer and with the same arguments, and nothing is
    closed. *)
Theorem local_events_before_constructions :
  exists t1 t2,
    trace (getKafkaConnection env settings) = (t1 ++ t2)%list
    /\ allLocal t1
    /\ (t2 = []
        \/ t2 = [NetNewSyncProducer (Split (BrokerUrls settings) ",")
                   (expectedConfig env settings)]
        \/ t2 = [NetNewSyncProducer (Split (BrokerUrls settings) ",")
                   (expectedConfig env settings);
                 NetNewConsumer (Split (BrokerUrls settings) ",")
                   (expectedConfig env settings)])
    /\ noClose (trace (getKafkaConnection env settings)).
Proof.
  destruct (getKafkaConnection_shape env settings)
    as [(pre & b & post & err & _ & _ & _ & R)
       |[(V & _ & e0 & t & R & Ht)|(V & T & S & t & Ht & R)]];
    rewrite R; act_simpl.
  - exists [], []. repeat split; auto.
  - exists t, []. rewrite app_nil_r. repeat split; auto.
    now apply allLocal_noClose.
  - eexists t, _. split; [reflexivity|]. split; [exact Ht|].
    rewrite construct_cases.
    destruct (netNewSyncProducer env _ _) as [e|p];
      [|destruct (netNewConsumer env _ _) as [e|c]]; act_simpl;
      (split; [auto|]);
      unfold noClose; rewrite forallb_app;
      apply andb_true_iff; split; try reflexivity;
      now apply allLocal_noClose.
Qed.

End BuilderMore.

Lemma constructors_get_tls_witness :
  Net_TLS_Enable (expectedConfig liveStore tlsSettings) = true
  /\ exists tls,
       Net_TLS_Config (expectedConfig liveStore tlsSettings) = Some tls
       /\ RootCAs tls = [sampleCert].
Proof.
  destruct (constructors_get_tls liveStore tlsSettings ["h:9092"]
              (expectedConfig liveStore tlsSettings)) as (E & _ & H).
  - left. vm_compute. right. right. right. right. right. right.
    left. reflexivity.
  - split; [exact E|].
    destruct (H eq_refl) as (tls & A & B & _). exists tls. split; assumption.
Defined.

Lemma first_invalid_broker_reported_witness :
  getKafkaConnection mixedStore secondBadSettings
  = (Fail (ErrBrokerFormat "bad" ErrHostPortSections), []).
Proof.
  apply (first_invalid_broker_reported mixedStore secondBadSettings
           ["h:9092"] ["k:x"] "bad" ErrHostPortSections).
  - reflexivity.
  - repeat constructor.
  - reflexivity.
Defined.

Lemma truststore_error_propagated_witness :
  getKafkaConnection mixedStore junkStoreSettings
  = (Fail (ErrNoValidCerts "/junk"),
     brokersLogged (Split (BrokerUrls junkStoreSettings) ",")
       :: trace (getCerts mixedStore (TrustStore junkStoreSettings)))
  /\ networkEvents (trace (getKafkaConnection mixedStore junkStoreSettings))
     = [].
Proof.
  apply (truststore_error_propagated mixedStore junkStoreSettings
           (ErrNoValidCerts "/junk")).
  - repeat constructor.
  - reflexivity.
  - reflexivity.
Defined.

Lemma producer_failure_skips_consumer_witness :
  value (getKafkaConnection mixedStore tlsSettings)
  = Fail (ErrSyncProducer (ErrExternal "unreachable"))
  /\ networkEvents (trace (getKafkaConnection mixedStore tlsSettings))
     = [NetNewSyncProducer (Split (BrokerUrls tlsSettings) ",")
          (expectedConfig mixedStore tlsSettings)].
Proof.
  apply (producer_failure_skips_consumer mixedStore tlsSettings
           (ErrExternal "unreachable")).
  - repeat constructor.
  - right. reflexivity.
  - left. reflexivity.
  - reflexivity.
Defined.

Lemma consumer_failure_leaves_producer_open_witness :
  value (getKafkaConnection halfLiveStore tlsSettings)
  = Fail (ErrConsumer (ErrExternal "no consumer"))
  /\ In (NetNewSyncProducer (Split (BrokerUrls tlsSettings) ",")
           (expectedConfig halfLiveStore tlsSettings))
        (trace (getKafkaConnection halfLiveStore tlsSettings))
  /\ ~ In (ProducerClose {| producerId := 1; producerClose := None |})
          (trace (getKafkaConnection halfLiveStore tlsSettings)).
Proof.
  apply (consumer_failure_leaves_producer_open halfLiveStore tlsSettings
           {| producerId := 1; producerClose := None |}
           (ErrExternal "no consumer")).
  - repeat constructor.
  - right. reflexivity.
  - left. reflexivity.
  - reflexivity.
  - reflexivity.
Defined.

Lemma getKafkaConnection_builds_handle_witness :
  exists conn,
    value (getKafkaConnection liveStore saslSettings) = Ok conn
    /\ Handle.Producer conn = {| producerId := 1; producerClose := None |}
    /\ Handle.Consumer conn = {| consumerId := 2; consumerClose := None |}
    /\ brokers conn = Split (BrokerUrls saslSettings) ","
    /\ kafkaConfig conn = expectedConfig liveStore saslSettings.
Proof.
  apply (getKafkaConnection_builds_handle liveStore saslSettings).
  - repeat constructor.
  - right. reflexivity.
  - right. discriminate.
  - reflexivity.
  - reflexivity.
Defined.

Lemma handle_only_after_all_checks_witness :
  allValid (Split (BrokerUrls saslSettings) ",")
  /\ tlsPasses liveStore saslSettings /\ saslPasses saslSettings.
Proof.
  destruct (handle_only_after_all_checks liveStore saslSettings
              {| kafkaConfig := expectedConfig liveStore saslSettings;
                 brokers := ["h:9092"; "k:9093"];
                 syncProducer := {| producerId := 1; producerClose := None |};
                 consumer := {| consumerId := 2; consumerClose := None |} |})
    as (V & T & S & _).
  - reflexivity.
  - repeat split; assumption.
Defined.

(** X15: a password given without a user has no effect on the run. *)
Theorem password_without_user_ignored (env : Env) (settings : Settings)
    (password : string) :
  nonEmpty (User settings) = false ->
  getKafkaConnection env (withPassword settings password)
  = getKafkaConnection env settings.
Proof.
  intros U.
  rewrite !getKafkaConnection_stages,
    !(connectBrokers_stages _ _ _ _ (Split_not_nil _ _)).
  change (BrokerUrls (withPassword settings password))
    with (BrokerUrls settings).
  assert (S : forall c,
             configureSASL (withPassword settings password) c
             = configureSASL settings c).
  { intros c. rewrite !configureSASL_cases.
    change (User (withPassword settings password)) with (User settings).
    now rewrite U. }
  destruct (validateBrokers 0 _ _); [|reflexivity].
  cbv zeta.
  change (configureTLS env (withPassword settings password) baseConfig)
    with (configureTLS env settings baseConfig).
  destruct (value (configureTLS env settings baseConfig)); [|reflexivity].
  now rewrite S.
Qed.

Lemma password_without_user_ignored_witness :
  getKafkaConnection liveStore (withPassword tlsSettings "secret")
  = getKafkaConnection liveStore tlsSettings.
Proof.
  apply (password_without_user_ignored liveStore tlsSettings "secret").
  reflexivity.
Defined.

(** ** More on address validation, the key and shutdown *)

(** X16: the two errors of the validation.  The sections error is given
    exactly for the strings whose number of colons is not one; the port
    error carries the text after the colon, which is then no accepted
    port. *)
Theorem validateBrokerUrl_error_cases (s : string) :
  (validateBrokerUrl s = Some ErrHostPortSections
   <-> countByte ":" s <> 1)
  /\ (forall port,
       validateBrokerUrl s = Some (ErrPortSpec port) ->
       exists host,
         s = host ++ ":" ++ port
         /\ countByte ":" host = 0 /\ countByte ":" port = 0
         /\ ~ AcceptedPort port).
Proof.
  unfold validateBrokerUrl.
  pose proof (Split_length ":" s) as L.
  destruct (Split s ":") as [|a [|b [|x l]]] eqn:E; simpl in L |- *.
  - discriminate L.
  - split; [split; [intros _; lia|reflexivity]|discriminate].
  - assert (C : countByte ":" s = 1) by lia.
    destruct (Split_two _ _ _ _ E) as (-> & Ha & Hb).
    split.
    + split; [|intros H; now contradiction H].
      destruct (Atoi b) as [i|]; [|discriminate].
      destruct ((i <? 0)%Z || (32767 <? i)%Z); discriminate.
    + intros port H.
      assert (P : port = b /\ ~ AcceptedPort b).
      { destruct (Atoi b) as [i|] eqn:A.
        - destruct ((i <? 0)%Z || (32767 <? i)%Z) eqn:R; [|discriminate H].
          injection H as <-. split; [reflexivity|].
          intros Hp. apply Atoi_accepts in Hp.
          destruct Hp as (j & Hj & Hr). rewrite A in Hj. injection Hj as <-.
          apply orb_true_iff in R. destruct R as [R|R];
            apply Z.ltb_lt in R; lia.
        - injection H as <-. split; [reflexivity|].
          intros Hp. apply Atoi_accepts in Hp.
          destruct Hp as (j & Hj & _). congruence. }
      destruct P as [-> P]. exists a. repeat split; auto.
  - split; [split; [intros _; lia|reflexivity]|discriminate].
Qed.

(** X17: the key does not tell a trust-store path from a user name: the
    same text in either field, with the other empty, gives the same
    key. *)
Theorem getConnectionKey_confuses_truststore_and_user
    (brokerUrls text password1 password2 : string) :
  getConnectionKey {| BrokerUrls := brokerUrls; User := text;
                      Password := password1; TrustStore := "" |}
  = getConnectionKey {| BrokerUrls := brokerUrls; User := "";
                        Password := password2; TrustStore := text |}.
Proof.
  unfold getConnectionKey. cbv zeta. simpl.
  destruct text as [|c text]; reflexivity.
Qed.

(** X18: [Stop] reports success exactly when both closes succeed, and
    then both objects have been closed, the producer first. *)
Theorem Stop_succeeds_iff (c : KafkaConnect) :
  (value (Stop c) = None
   <-> producerClose (syncProducer c) = None
       /\ consumerClose (consumer c) = None)
  /\ (value (Stop c) = None ->
      trace (Stop c)
      = [ProducerClose (syncProducer c); ConsumerClose (consumer c)]).
Proof.
  unfold Stop, SyncProducer_Close, Consumer_Close. act_simpl.
  destruct (producerClose (syncProducer c)) as [e|]; act_simpl.
  - split; [split; [discriminate|intros [H _]; discriminate H]
           |discriminate].
  - destruct (consumerClose (consumer c)) as [e|]; act_simpl.
    + split; [split; [discriminate|intros [_ H]; discriminate H]
             |discriminate].
    + split; [split; auto|reflexivity].
Qed.

(** X19: stopping a handle the builder returned closes the producer the
    producer constructor gave for the split broker list and the final
    configuration, and then, when that close succeeds, the consumer the
    consumer constructor gave. *)
Theorem Stop_after_build (env : Env) (settings : Settings)
    (conn : KafkaConnect) :
  value (getKafkaConnection env settings) = Ok conn ->
  exists p c,
    netNewSyncProducer env (Split (BrokerUrls settings) ",")
      (expectedConfig env settings) = inr p
    /\ netNewConsumer env (Split (BrokerUrls settings) ",")
         (expectedConfig env settings) = inr c
    /\ Stop conn
       = match producerClose p with
         | Some e => (Some e, [ProducerClose p])
         | None => (consumerClose c, [ProducerClose p; ConsumerClose c])
         end.
Proof.
  intros H.
  destruct (getKafkaConnection_shape env settings)
    as [(pre & b & post & err & _ & _ & _ & R)
       |[(V & _ & e0 & t & R & Ht)|(V & T & S & t & Ht & R)]];
    rewrite R in H; autorewrite with act in H; try discriminate H.
  rewrite construct_cases in H.
  destruct (netNewSyncProducer env _ _) as [e|p]; [discriminate H|].
  destruct (netNewConsumer env _ _) as [e|c]; [discriminate H|].
  autorewrite with act in H. injection H as <-.
  exists p, c. repeat split.
  unfold Stop, SyncProducer_Close, Consumer_Close.
  rewrite (act_eta (bind _ _)). act_simpl.
  cbn [syncProducer consumer].
  destruct (producerClose p); act_simpl; [reflexivity|].
  now destruct (consumerClose c).
Qed.

Lemma Stop_after_build_witness :
  exists p c,
    netNewSyncProducer liveStore (Split (BrokerUrls saslSettings) ",")
      (expectedConfig liveStore saslSettings) = inr p
    /\ netNewConsumer liveStore (Split (BrokerUrls saslSettings) ",")
         (expectedConfig liveStore saslSettings) = inr c
    /\ Stop {| kafkaConfig := expectedConfig liveStore saslSettings;
               brokers := ["h:9092"; "k:9093"];
               syncProducer := {| producerId := 1; producerClose := None |};
               consumer := {| consumerId := 2; consumerClose := None |} |}
       = match producerClose p with
         | Some e => (Some e, [ProducerClose p])
         | None => (consumerClose c, [ProducerClose p; ConsumerClose c])
         end.
Proof.
  apply (Stop_after_build liveStore saslSettings). reflexivity.
Defined.
